(** * parsejson.py: leaves, empty object files and list verification

    A shallow embedding of [parsejson.py] of the sdep repository.  The script
    loads the JSON analysis of a static library, splits its ["Content"] into
    empty and non-empty object files and then either prints the independent
    object files ([printLeaves]), the empty ones ([printEmpty]) or checks a
    list of object files for missing dependencies ([verify]).

    Conventions of the embedding:
    - a Python [dict] is an association list in insertion order (the order
      [items()] iterates in); a loaded JSON object has pairwise distinct keys,
      which statements that need it assume as [NoDup (dict_keys d)];
    - a Python [set] of strings is a [gset string];
    - [print] appends one line to the standard output; a line is kept in
      structured form and [render] gives the text the script writes;
    - an exception that nothing catches ends the function at once; the
      output written before it stays;
    - a Python [float] is an IEEE 754 binary64 number ([spec_float] with
      precision 53 and maximal exponent 1024);
    - [len] of a name counts the characters of the Rocq string (the two agree
      on ASCII names; the length is only used for the padding of columns). *)

From Stdlib Require Import ZArith Strings.Ascii Floats.SpecFloat.
From stdpp Require Import base decidable list strings gmap pretty.

Local Open Scope string_scope.

(** ** Python values and dictionaries *)

Module Py.

(** The exceptions the script can raise after the document is loaded. *)
Inductive exn : Set :=
| ZeroDivisionError
| ValueError
| KeyError
| TypeError.

#[global] Instance exn_eq_dec : EqDecision exn.
Proof. solve_decision. Defined.

(** [dict V]: keys are strings, [items()] is the list itself. *)
Abbreviation dict V := (list (string * V)).

Definition dict_keys {V} (d : dict V) : list string := d.*1.

(** [k in d] *)
Definition dict_in {V} (k : string) (d : dict V) : bool :=
  bool_decide (k ∈ dict_keys d).

(** [d.get(k)]: the value under the first (and, in a well-formed
    dictionary, only) occurrence of the key. *)
Fixpoint dict_get {V} (k : string) (d : dict V) : option V :=
  match d with
  | [] => None
  | (k', v) :: d' => if decide (k = k') then Some v else dict_get k d'
  end.

(** [d[k] = v]: an existing key keeps its position, a new key goes last. *)
Fixpoint dict_set {V} (k : string) (v : V) (d : dict V) : dict V :=
  match d with
  | [] => [(k, v)]
  | (k', v') :: d' =>
      if decide (k = k') then (k', v) :: d' else (k', v') :: dict_set k v d'
  end.

(** [max(l)] on a list of lengths: [ValueError] on the empty list. *)
Definition max_list (l : list nat) : exn + nat :=
  match l with
  | [] => inl ValueError
  | x :: l' => inr (foldr Nat.max x l')
  end.

(** [sep.join(l)] *)
Fixpoint join (sep : string) (l : list string) : string :=
  match l with
  | [] => EmptyString
  | [x] => x
  | x :: l' => x +:+ sep +:+ join sep l'
  end.

(** [" " * n] *)
Fixpoint spaces (n : nat) : string :=
  match n with
  | O => EmptyString
  | S n' => String " "%char (spaces n')
  end.

End Py.
Import Py.

(** ** Floating-point percentages

    [(a / b) * 100] on two [int]s and the format specification [{:.0f}]. *)

Module PyFloat.

Definition prec : Z := 53.
Definition emax : Z := 1024.

(** [float(n)] for a count [n] (exact below [2^53]). *)
Definition of_nat (n : nat) : spec_float :=
  binary_normalize prec emax (Z.of_nat n) 0 false.

(** [a / b] on two counts, [b] not zero: the quotient rounded to the
    nearest binary64 number. *)
Definition div (a b : nat) : spec_float :=
  SFdiv prec emax (of_nat a) (of_nat b).

(** [x * 100] *)
Definition times100 (x : spec_float) : spec_float :=
  SFmul prec emax x (of_nat 100).

(** The integer nearest to [m * 2^e], a tie going to the even neighbour:
    the decimal conversion behind [{:.0f}] is correctly rounded. *)
Definition round_half_even (m : positive) (e : Z) : Z :=
  if (0 <=? e)%Z then (Z.pos m * 2 ^ e)%Z
  else
    let d := (2 ^ (- e))%Z in
    let q := (Z.pos m / d)%Z in
    let r := (Z.pos m mod d)%Z in
    if (2 * r <? d)%Z then q
    else if (d <? 2 * r)%Z then (q + 1)%Z
    else if Z.even q then q else (q + 1)%Z.

(** ["{:.0f}".format(x)] *)
Definition format_0f (x : spec_float) : string :=
  match x with
  | S754_zero s => if s then "-0" else "0"
  | S754_infinity s => if s then "-inf" else "inf"
  | S754_nan => "nan"
  | S754_finite s m e =>
      (if s then "-" else EmptyString) +:+ pretty (round_half_even m e)
  end.

(** The percentage as the script writes it: ["{:.0f}".format((a / b) * 100)]. *)
Definition percent (a b : nat) : string :=
  format_0f (times100 (div a b)).

End PyFloat.

(** ** The loaded document and the dictionary [main] builds from it *)

(** A value under a key of ["Content"]: the string ["EMPTY"] or an object
    with a ["Dependencies"] array. *)
Inductive value : Type :=
| EMPTY
| Object (Dependencies : list string).

#[global] Instance value_eq_dec : EqDecision value.
Proof. solve_decision. Defined.

(** The document [json.load] returns. *)
Record document : Type := {
  doc_library : string;          (* "Static library" *)
  doc_Content : dict value       (* "Content" *)
}.

(** [staticdep] once [main] has added ["Empty"] and replaced ["Content"]. *)
Record staticdep : Type := {
  Static_library : string;
  Content : dict value;
  Empty : list string
}.

(** [main], lines 123-126:
      staticdep["Empty"]   = [key for key, val in ... if val == "EMPTY"]
      staticdep["Content"] = {key: val for key, val in ... if val != "EMPTY"} *)
Definition split_content (doc : document) : staticdep :=
  {| Static_library := doc_library doc;
     Content := filter (λ kv, kv.2 ≠ EMPTY) (doc_Content doc);
     Empty := (filter (λ kv, kv.2 = EMPTY) (doc_Content doc)).*1 |}.


(** ** Standard output and uncaught exceptions *)

(** One constructor per [print] statement of the script. *)
Inductive line : Type :=
| LeavesHeader (lib : string)
| Item (objectName : string)
| StatsHeader
| StatNonEmpty (nbIndepObj nbNonEmptyObj : nat) (pct : string)
| StatAll (nbIndepObj nbObj : nat) (pct : string)
| EmptyHeader (lib : string)
| StatEmpty (nbEmptyObj nbObj : nat) (pct : string)
| NoEmpty (lib : string)
| VerifyHeader (lib : string) (nbFiles : nat) (objectlist : string)
| Columns (maxLength : nat) (title : string)
| DepLine (maxLength : nat) (objectName : string) (dependencies : list string)
| NotFound (objectName : string)
| Incomplete
| MissingLine (maxLength : nat) (objectName : string) (missingDep : gset string)
| Complete.

#[global] Instance line_eq_dec : EqDecision line.
Proof. solve_decision. Defined.

Definition newline : string := String (ascii_of_nat 10) EmptyString.

(** ["- {0}".format(objectName) + " " * (maxLength - len(objectName)) + " <- "] *)
Definition column (maxLength : nat) (objectName : string) : string :=
  "- " +:+ objectName +:+ spaces (maxLength - String.length objectName)
  +:+ " <- ".

(** The text of a line.  The elements of a set are joined in the order
    [elements] lists them; Python leaves that order unspecified. *)
Definition render (l : line) : string :=
  match l with
  | LeavesHeader lib =>
      "Non-empty object files in '" +:+ lib
      +:+ "' that do not depend on any others are:"
  | Item objectName => "- " +:+ objectName
  | StatsHeader => newline +:+ "This represents:"
  | StatNonEmpty n d pct =>
      "- " +:+ pretty n +:+ "/" +:+ pretty d
      +:+ " of all non-empty object files or about " +:+ pct +:+ "%."
  | StatAll n d pct =>
      "- " +:+ pretty n +:+ "/" +:+ pretty d
      +:+ " of all object files or about " +:+ pct +:+ "%."
  | EmptyHeader lib => "Empty object files in '" +:+ lib +:+ "' are:"
  | StatEmpty n d pct =>
      newline +:+ "This represents " +:+ pretty n +:+ "/" +:+ pretty d
      +:+ " of all object files or about " +:+ pct +:+ "%."
  | NoEmpty lib => "There is no empty object file in " +:+ lib
  | VerifyHeader lib n objectlist =>
      "Dependencies in '" +:+ lib +:+ "' of the " +:+ pretty n
      +:+ " object files from '" +:+ objectlist +:+ "':"
  | Columns maxLength title =>
      "  OBJ_FILE" +:+ spaces (maxLength - String.length "OBJ_FILE")
      +:+ " <- " +:+ title
  | DepLine maxLength objectName dependencies =>
      column maxLength objectName
      +:+ (if decide (dependencies = []) then "No dependencies"
           else join ", " dependencies)
  | NotFound objectName => "- No object file '" +:+ objectName +:+ "' found"
  | Incomplete => newline +:+ "This list of object files is INCOMPLETE:"
  | MissingLine maxLength objectName missingDep =>
      column maxLength objectName +:+ join ", " (elements missingDep)
  | Complete => "This list of object files is COMPLETE"
  end.

(** A computation that prints lines and either returns a value or stops at
    an exception. *)
Definition io (A : Type) : Type := list line * (exn + A).

#[global] Instance io_ret : MRet io := λ A a, ([], inr a).

#[global] Instance io_bind : MBind io := λ A B f m,
  match m.2 with
  | inl e => (m.1, inl e)
  | inr a => ((m.1 ++ (f a).1)%list, (f a).2)
  end.

Definition raise {A} (e : exn) : io A := ([], inl e).
Definition print (l : line) : io unit := ([l], inr tt).
Definition lift {A} (r : exn + A) : io A := ([], r).

Definition stdout {A} (m : io A) : list line := m.1.
Definition outcome {A} (m : io A) : exn + A := m.2.

(** [for x in l: body], the loop body threading the variables it assigns. *)
Fixpoint for_in {A S} (l : list A) (body : A → S → io S) (s : S) : io S :=
  match l with
  | [] => mret s
  | x :: l' => s' ← body x s; for_in l' body s'
  end.

(** [d[k]] *)
Definition dict_getitem {V} (k : string) (d : dict V) : io V :=
  match dict_get k d with
  | Some v => mret v
  | None => raise KeyError
  end.

(** [value['Dependencies']]: a string cannot be indexed by a string. *)
Definition getDependencies (v : value) : io (list string) :=
  match v with
  | Object dependencies => mret dependencies
  | EMPTY => raise TypeError
  end.

(** [(a / b) * 100] *)
Definition ratio100 (a b : nat) : io spec_float :=
  if decide (b = 0) then raise ZeroDivisionError
  else mret (PyFloat.times100 (PyFloat.div a b)).

(** ** printLeaves *)

(** Lines 15-18. *)
Definition leaves_body (item : string * value) (nbIndepObj : nat) : io nat :=
  dependencies ← getDependencies item.2;
  if decide (dependencies = []) then
    print (Item item.1);; mret (S nbIndepObj)
  else mret nbIndepObj.

Definition printLeaves (sd : staticdep) : io unit :=
  let slibContent := Content sd in
  let nbNonEmptyObj := length slibContent in
  let nbEmptyObj := length (Empty sd) in
  print (LeavesHeader (Static_library sd));;
  nbIndepObj ← for_in slibContent leaves_body 0;
  print StatsHeader;;
  r ← ratio100 nbIndepObj nbNonEmptyObj;
  print (StatNonEmpty nbIndepObj nbNonEmptyObj (PyFloat.format_0f r));;
  r' ← ratio100 nbIndepObj (nbEmptyObj + nbNonEmptyObj);
  print (StatAll nbIndepObj (nbNonEmptyObj + nbEmptyObj) (PyFloat.format_0f r')).

(** ** printEmpty *)

Definition printEmpty (sd : staticdep) : io unit :=
  let emptyContent := Empty sd in
  let nbNonEmptyObj := length (Content sd) in
  let nbEmptyObj := length emptyContent in
  if decide (emptyContent ≠ []) then
    print (EmptyHeader (Static_library sd));;
    for_in emptyContent (λ objectName _, print (Item objectName)) tt;;
    r ← ratio100 nbEmptyObj (nbNonEmptyObj + nbEmptyObj);
    print (StatEmpty nbEmptyObj (nbEmptyObj + nbNonEmptyObj)
             (PyFloat.format_0f r))
  else print (NoEmpty (Static_library sd)).

(** ** verify *)

(** Lines 63-80: one object file of the list.  [incompleteObj] maps an
    object file to its missing dependencies. *)
Definition verify_body (slibContent : dict value) (maxLength : nat)
    (objectFiles : list string) (objectName : string)
    (incompleteObj : dict (gset string)) : io (dict (gset string)) :=
  if dict_in objectName slibContent then
    v ← dict_getitem objectName slibContent;
    dependencies ← getDependencies v;
    let difference : gset string :=
      list_to_set dependencies ∖ list_to_set objectFiles in
    let incompleteObj :=
      if decide (difference ≠ ∅)
      then dict_set objectName difference incompleteObj
      else incompleteObj in
    print (DepLine maxLength objectName dependencies);;
    mret incompleteObj
  else
    print (NotFound objectName);; mret incompleteObj.

(** Lines 83-93. *)
Definition verdict (maxLength : nat) (incompleteObj : dict (gset string))
    : io unit :=
  if decide (incompleteObj ≠ []) then
    print Incomplete;;
    print (Columns maxLength "MISSING_DEPENDENCIES");;
    for_in incompleteObj
      (λ kv _, print (MissingLine maxLength kv.1 kv.2)) tt
  else print Complete.

(** [verify] returns nothing in the script; the embedding returns the final
    [incompleteObj] so that statements can speak about it. *)
Definition verify (sd : staticdep) (objectlist : string)
    (objectFiles : list string) : io (dict (gset string)) :=
  let slibContent := Content sd in
  maxLength ← lift (max_list (String.length <$> dict_keys slibContent));
  let maxLength := Nat.max maxLength (String.length "OBJ_FILE") in
  print (VerifyHeader (Static_library sd) (length objectFiles) objectlist);;
  print (Columns maxLength "DEPENDENCIES");;
  incompleteObj ←
    for_in objectFiles (verify_body slibContent maxLength objectFiles) [];
  verdict maxLength incompleteObj;;
  mret incompleteObj.

(** ** main, once the document is loaded

    [v] is the option [-v]: the name of the list file with its stripped
    lines; [e] is the flag [-e].  No handler of [main] covers the calls
    below: an exception they raise ends the program. *)
Definition main (doc : document) (v : option (string * list string))
    (e : bool) : io unit :=
  let sd := split_content doc in
  match v with
  | None => if e then printEmpty sd else printLeaves sd
  | Some (objectlist, objectFiles) => verify sd objectlist objectFiles;; mret tt
  end.


(** ** Notions the statements use *)

(** The names with an empty ["Dependencies"], in the order of the keys. *)
Definition leaf_names (c : dict value) : list string :=
  (filter (λ kv, kv.2 = Object []) c).*1.

(** A document has a non-empty object file. *)
Definition has_object (doc : document) : Prop :=
  ∃ k deps, (k, Object deps) ∈ doc_Content doc.

(** The percentage [100 * a / b] rounded to the nearest integer, a half
    going up. *)
Definition percent_half_up (a b : nat) : Z :=
  ((200 * Z.of_nat a + Z.of_nat b) / (2 * Z.of_nat b))%Z.

(** What the loop of [verify] prints and records for one name, given the
    non-empty object files [c] and the list [names]. *)
Definition entry_of (c : dict value) (maxLength : nat) (name : string) : line :=
  match dict_get name c with
  | Some (Object deps) => DepLine maxLength name deps
  | _ => NotFound name
  end.

Definition diff_of (c : dict value) (names : list string) (name : string)
    : option (gset string) :=
  match dict_get name c with
  | Some (Object deps) =>
      let difference : gset string := list_to_set deps ∖ list_to_set names in
      if decide (difference ≠ ∅) then Some difference else None
  | _ => None
  end.

Definition missing_step (c : dict value) (names : list string)
    (incompleteObj : dict (gset string)) (name : string) : dict (gset string) :=
  match diff_of c names name with
  | Some difference => dict_set name difference incompleteObj
  | None => incompleteObj
  end.

(** The width of the first column: lines 53-54 when they succeed. *)
Definition column_width (c : dict value) : nat :=
  match max_list (String.length <$> dict_keys c) with
  | inr m => Nat.max m (String.length "OBJ_FILE")
  | inl _ => 0
  end.

(** The lines of the verdict. *)
Definition verdict_lines (maxLength : nat) (incompleteObj : dict (gset string))
    : list line :=
  if decide (incompleteObj ≠ []) then
    Incomplete :: Columns maxLength "MISSING_DEPENDENCIES"
    :: ((λ kv, MissingLine maxLength kv.1 kv.2) <$> incompleteObj)
  else [Complete].

(** The dictionary [incompleteObj] at the end of the loop of [verify]. *)
Definition missing_of (c : dict value) (names : list string)
    : dict (gset string) :=
  foldl (missing_step c names) [] names.

(** [p] is the integer nearest to [m * 2^e], the even one of the two when
    [m * 2^e] lies halfway between them.  With [d] a power of two that
    clears the denominator, [m * 2^e = num / d]. *)
Definition nearest_ties_even (m : positive) (e : Z) (p : Z) : Prop :=
  let d := (2 ^ Z.max 0 (- e))%Z in
  let num := (Z.pos m * 2 ^ Z.max 0 e)%Z in
  (Z.abs (2 * (p * d - num)) ≤ d)%Z ∧
  (Z.abs (2 * (p * d - num)) = d → Z.even p = true).

(** The pairs [(a, b)] of counts with [0 <= a <= b] and [1 <= b <= n]. *)
Definition count_pairs (n : nat) : list (nat * nat) :=
  b ← seq 1 n; a ← seq 0 (S b); [(a, b)].

(** [x] is zero or a positive finite number. *)
Definition is_percentage (x : spec_float) : bool :=
  match x with
  | S754_zero false | S754_finite false _ _ => true
  | _ => false
  end.

(** [p] is the integer nearest to the number [x], the even one on a tie. *)
Definition rounds_to (x : spec_float) (p : Z) : Prop :=
  match x with
  | S754_zero _ => p = 0%Z
  | S754_finite false m e => nearest_ties_even m e p
  | _ => False
  end.

(** The list is closed under the dependencies of its non-empty object
    files: the dependency-complete lists. *)
Definition closed_under_dependencies (doc : document) (names : list string)
    : Prop :=
  ∀ name deps dep,
    name ∈ names → (name, Object deps) ∈ doc_Content doc → dep ∈ deps →
    dep ∈ names.

(** A check that the printed percentage of [a] among [b] is one of the
    integers nearest to [100 * a / b]. *)
Definition near_exact (ab : nat * nat) : bool :=
  let a := Z.of_nat ab.1 in
  let b := Z.of_nat ab.2 in
  let p := (100 * a / b)%Z in
  (0 <? b)%Z
  && ((bool_decide (PyFloat.percent ab.1 ab.2 = pretty p)
       && (2 * (100 * a - p * b) <=? b)%Z)
      || (bool_decide (PyFloat.percent ab.1 ab.2 = pretty (p + 1)%Z)
          && (2 * ((p + 1) * b - 100 * a) <=? b)%Z)).

(** ** Documents used as examples *)

Definition lib_two : document :=
  {| doc_library := "libtwo.a";
     doc_Content := [("a.o", Object []); ("b.o", Object ["a.o"])] |}.

Definition lib_mixed : document :=
  {| doc_library := "libmixed.a";
     doc_Content := [("a.o", EMPTY); ("b.o", Object [])] |}.

Definition lib_hollow : document :=
  {| doc_library := "libhollow.a"; doc_Content := [("a.o", EMPTY)] |}.

Definition lib_none : document :=
  {| doc_library := "libnone.a"; doc_Content := [] |}.

Definition lib_loop : document :=
  {| doc_library := "libloop.a";
     doc_Content := [("s.o", Object ["s.o"; "t.o"]); ("t.o", Object [])] |}.

(** One independent object file among eight. *)
Definition lib_eight : document :=
  {| doc_library := "libeight.a";
     doc_Content :=
       ("o1.o", Object [])
       :: ((λ k, (k, Object ["o1.o"])) <$>
             ["o2.o"; "o3.o"; "o4.o"; "o5.o"; "o6.o"; "o7.o"; "o8.o"]) |}.

(** * Properties *)

(** ** Running a computation *)

Section io_lemmas.
Context {A B : Type}.
Implicit Types (m : io A) (f : A → io B).

Lemma bind_returns m f o a :
  m = (o, inr a) → m ≫= f = ((o ++ stdout (f a))%list, outcome (f a)).
Proof. by intros ->. Qed.

Lemma bind_raises m f o e : m = (o, inl e) → m ≫= f = (o, inl e).
Proof. by intros ->. Qed.

End io_lemmas.

(** One step of a computation whose parts are known. *)
Ltac io_step := cbn [mbind io_bind mret io_ret fst snd stdout outcome].

(** A loop whose body only prints. *)
Lemma for_in_print {X} (l : list X) (g : X → line) :
  for_in l (λ x _, print (g x)) tt = (g <$> l, inr tt).
Proof.
  induction l as [|x l IH]; [done|].
  cbn [for_in]. erewrite bind_returns by reflexivity. by rewrite IH.
Qed.

(** ** What [main] leaves in ["Content"] and in ["Empty"] *)

Section split.
Variable doc : document.
Let sd := split_content doc.

Lemma Content_no_EMPTY kv : kv ∈ Content sd → kv.2 ≠ EMPTY.
Proof. intros Hkv. apply list_elem_of_filter in Hkv. tauto. Qed.

Lemma Content_elem k deps :
  (k, Object deps) ∈ Content sd ↔ (k, Object deps) ∈ doc_Content doc.
Proof.
  unfold sd, split_content; cbn. rewrite list_elem_of_filter. cbn.
  split; [tauto|]. intros H; split; [discriminate|exact H].
Qed.

Lemma Empty_elem k : k ∈ Empty sd ↔ (k, EMPTY) ∈ doc_Content doc.
Proof.
  unfold sd, split_content; cbn. rewrite list_elem_of_fmap. split.
  - intros [[k' v] [-> [Hv ?]%list_elem_of_filter]]. cbn in *. by subst.
  - intros ?. exists (k, EMPTY). by rewrite list_elem_of_filter.
Qed.

Lemma Content_sublist : Content sd `sublist_of` doc_Content doc.
Proof. apply sublist_filter. Qed.

Lemma Content_subseteq kv : kv ∈ Content sd → kv ∈ doc_Content doc.
Proof. intros Hkv. eapply elem_of_sublist; [exact Hkv|apply Content_sublist]. Qed.

Lemma Content_NoDup :
  NoDup (dict_keys (doc_Content doc)) → NoDup (dict_keys (Content sd)).
Proof.
  intros H. eapply sublist_NoDup; [exact H|].
  unfold dict_keys. apply fmap_sublist, Content_sublist.
Qed.

Lemma split_lengths :
  length (Empty sd) + length (Content sd) = length (doc_Content doc).
Proof.
  unfold sd, split_content; cbn [Empty Content]. rewrite length_fmap.
  rewrite <- length_app.
  apply Permutation_length, (filter_app_complement (λ kv : string * value, kv.2 = EMPTY)).
Qed.

End split.

(** ** The leaves *)

Lemma leaves_body_Object k deps n :
  leaves_body (k, Object deps) n =
    if decide (deps = []) then ([Item k], inr (S n)) else ([], inr n).
Proof. by destruct deps. Qed.

Lemma leaves_loop (c : dict value) (n : nat) :
  (∀ kv, kv ∈ c → kv.2 ≠ EMPTY) →
  for_in c leaves_body n = (Item <$> leaf_names c, inr (n + length (leaf_names c))).
Proof.
  revert n. induction c as [|[k v] c IH]; intros n Hc.
  - cbn. by rewrite Nat.add_0_r.
  - assert (Hv : v ≠ EMPTY) by (apply (Hc (k, v)); left).
    assert (Hc' : ∀ kv, kv ∈ c → kv.2 ≠ EMPTY) by (intros; apply Hc; by right).
    destruct v as [|deps]; [done|].
    unfold leaf_names in *. rewrite filter_cons. cbn [for_in snd].
    rewrite leaves_body_Object.
    destruct deps as [|d deps].
    + rewrite !decide_True by done.
      erewrite bind_returns by reflexivity. rewrite (IH (S n) Hc'). cbn.
      do 2 f_equal. lia.
    + rewrite !decide_False by done.
      erewrite bind_returns by reflexivity. by rewrite (IH n Hc').
Qed.

Lemma leaf_names_split (doc : document) :
  leaf_names (Content (split_content doc)) = leaf_names (doc_Content doc).
Proof.
  unfold leaf_names, split_content; cbn. f_equal.
  rewrite list_filter_filter. apply list_filter_iff. intros [k v]; cbn.
  split; [tauto|]. intros ->. done.
Qed.

Lemma leaf_names_length (c : dict value) :
  (length (leaf_names c) ≤ length c)%nat.
Proof. unfold leaf_names. rewrite length_fmap. apply length_filter. Qed.

(** The whole of [printLeaves] on what [main] hands over. *)
Lemma printLeaves_run (doc : document) :
  let sd := split_content doc in
  let leaves := leaf_names (doc_Content doc) in
  let n := length (Content sd) in
  printLeaves sd =
    if decide (n = 0) then
      (LeavesHeader (doc_library doc) :: (Item <$> leaves) ++ [StatsHeader],
       inl ZeroDivisionError)
    else
      (LeavesHeader (doc_library doc) :: (Item <$> leaves) ++
         [StatsHeader;
          StatNonEmpty (length leaves) n (PyFloat.percent (length leaves) n);
          StatAll (length leaves) (n + length (Empty sd))
            (PyFloat.percent (length leaves) (length (Empty sd) + n))],
       inr tt).
Proof.
  intros sd leaves n. unfold printLeaves.
  rewrite (leaves_loop (Content sd) 0) by apply Content_no_EMPTY.
  change (leaf_names (Content sd)) with (leaf_names (Content (split_content doc))).
  rewrite leaf_names_split. fold leaves.
  change (length (Content sd)) with n. change (Static_library sd) with (doc_library doc).
  generalize (length (Empty sd)); intros ne. clearbody n leaves. clear sd.
  unfold ratio100, PyFloat.percent.
  destruct (decide (n = 0)) as [Hn|Hn].
  - by cbn.
  - cbn. rewrite decide_False by lia. by cbn.
Qed.

(** ** Counts *)

(** C7: the empty and the non-empty object files partition the object files
    of the document, and the number of independent object files that
    [printLeaves] counts is at most the number of non-empty ones, itself at
    most the number of object files. *)
Theorem counts_partition (doc : document) :
  let sd := split_content doc in
  let nbEmptyObj := length (Empty sd) in
  let nbNonEmptyObj := length (Content sd) in
  nbEmptyObj + nbNonEmptyObj = length (doc_Content doc) ∧
  ∃ nbIndepObj,
    outcome (for_in (Content sd) leaves_body 0) = inr nbIndepObj ∧
    (nbIndepObj ≤ nbNonEmptyObj)%nat ∧
    (nbNonEmptyObj ≤ length (doc_Content doc))%nat.
Proof.
  intros sd nbEmptyObj nbNonEmptyObj.
  pose proof (split_lengths doc) as Hlen. split; [exact Hlen|].
  exists (length (leaf_names (Content sd))). split; [|split].
  - by rewrite (leaves_loop (Content sd) 0) by apply Content_no_EMPTY.
  - apply leaf_names_length.
  - fold sd in Hlen. unfold nbNonEmptyObj. lia.
Qed.

(** ** Leaves *)

Lemma leaf_names_elem (c : dict value) k :
  k ∈ leaf_names c ↔ (k, Object []) ∈ c.
Proof.
  unfold leaf_names. rewrite list_elem_of_fmap. split.
  - intros [[k' v] [-> Hkv]]. apply list_elem_of_filter in Hkv.
    cbn in Hkv. destruct Hkv as [-> Hkv]. exact Hkv.
  - intros Hk. exists (k, Object []). split; [done|].
    by apply list_elem_of_filter.
Qed.

Lemma leaf_names_sublist (c : dict value) :
  leaf_names c `sublist_of` dict_keys c.
Proof. unfold leaf_names, dict_keys. apply fmap_sublist, sublist_filter. Qed.

(** C2: on every document with distinct keys, [printLeaves] prints, between
    its header and its statistics, exactly the names of the object files
    with an empty dependency list, each once and in the order of the keys;
    the number it counts, and prints when there is a non-empty object file,
    is the number of these names. *)
Theorem printLeaves_lists_leaves (doc : document) :
  NoDup (dict_keys (doc_Content doc)) →
  let sd := split_content doc in
  let leaves := leaf_names (doc_Content doc) in
  (∀ name, name ∈ leaves ↔ (name, Object []) ∈ doc_Content doc) ∧
  NoDup leaves ∧
  leaves `sublist_of` dict_keys (doc_Content doc) ∧
  for_in (Content sd) leaves_body 0 = (Item <$> leaves, inr (length leaves)) ∧
  ∃ rest,
    stdout (printLeaves sd) =
      LeavesHeader (doc_library doc) :: (Item <$> leaves) ++ StatsHeader :: rest ∧
    (Content sd ≠ [] →
     ∃ pct pct',
       rest = [StatNonEmpty (length leaves) (length (Content sd)) pct;
               StatAll (length leaves)
                 (length (Content sd) + length (Empty sd)) pct']).
Proof.
  intros Hkeys sd leaves. split; [|split; [|split; [|split]]].
  - intros name. apply leaf_names_elem.
  - eapply sublist_NoDup; [exact Hkeys|apply leaf_names_sublist].
  - apply leaf_names_sublist.
  - subst sd leaves.
    rewrite (leaves_loop (Content _) 0) by apply Content_no_EMPTY.
    by rewrite leaf_names_split.
  - subst sd leaves. rewrite (printLeaves_run doc). cbv zeta.
    destruct (decide (length (Content (split_content doc)) = 0)) as [Hn|Hn].
    + exists []. split; [done|]. intros Hne.
      by destruct (Content (split_content doc)).
    + eexists. split; [reflexivity|]. intros _. by eexists _, _.
Qed.

Lemma printLeaves_lists_leaves_witness :
  NoDup (dict_keys (doc_Content lib_two)) ∧
  for_in (Content (split_content lib_two)) leaves_body 0 =
    ([Item "a.o"], inr 1).
Proof.
  assert (Hkeys : NoDup (dict_keys (doc_Content lib_two))).
  { apply (bool_decide_unpack _). vm_compute. exact I. }
  split; [exact Hkeys|].
  exact (proj1 (proj2 (proj2 (proj2
           (printLeaves_lists_leaves lib_two Hkeys))))).
Defined.

(** ** Dictionaries *)

Section dict_lemmas.
Context {V : Type}.
Implicit Types (d : dict V) (k : string) (v : V).

Lemma dict_get_Some_elem d k v : dict_get k d = Some v → (k, v) ∈ d.
Proof.
  induction d as [|[k' v'] d IH]; cbn; [done|].
  case_decide as Hk; [intros [= ->]; subst; left|right; auto].
Qed.

Lemma dict_get_None d k : dict_get k d = None ↔ k ∉ dict_keys d.
Proof.
  unfold dict_keys. induction d as [|[k' v'] d IH]; cbn.
  - split; [intros _; apply not_elem_of_nil|done].
  - rewrite not_elem_of_cons. case_decide as Hk; [|tauto].
    split; [done|]. intros [Hne _]. by destruct Hne.
Qed.

Lemma dict_elem_get d k v : NoDup (dict_keys d) → (k, v) ∈ d → dict_get k d = Some v.
Proof.
  unfold dict_keys. induction d as [|[k' v'] d IH]; cbn; intros Hnd Hin.
  - by apply elem_of_nil in Hin.
  - apply NoDup_cons in Hnd as [Hk' Hnd].
    apply elem_of_cons in Hin as [[= -> ->]|Hin].
    + by rewrite decide_True.
    + rewrite decide_False; [by apply IH|].
      intros ->. apply Hk'. apply list_elem_of_fmap. by exists (k', v).
Qed.

Lemma dict_in_true d k : dict_in k d = true ↔ is_Some (dict_get k d).
Proof.
  unfold dict_in. rewrite bool_decide_eq_true.
  destruct (dict_get k d) as [v|] eqn:Hget.
  - split; [by eexists|]. intros _. apply dict_get_Some_elem in Hget.
    apply list_elem_of_fmap. by exists (k, v).
  - apply dict_get_None in Hget. split; [done|]. by intros [? ?].
Qed.

Lemma dict_get_set d k k' v :
  dict_get k (dict_set k' v d) = if decide (k = k') then Some v else dict_get k d.
Proof.
  induction d as [|[k0 v0] d IH]; cbn.
  - by repeat case_decide.
  - destruct (decide (k' = k0)) as [->|Hne]; cbn.
    + by repeat case_decide.
    + rewrite IH. repeat case_decide; congruence.
Qed.

Lemma dict_set_elem d k k' v v' :
  (k, v) ∈ dict_set k' v' d → (k, v) ∈ d ∨ (k = k' ∧ v = v').
Proof.
  induction d as [|[k0 v0] d IH]; cbn.
  - intros [= -> ->]%list_elem_of_singleton. by right.
  - case_decide as Hk; subst; intros [Heq|Hin]%elem_of_cons.
    + injection Heq as -> ->. by right.
    + left. by right.
    + left. rewrite Heq. by left.
    + destruct (IH Hin) as [?|?]; [left; by right|by right].
Qed.

End dict_lemmas.

(** ** Running [verify] *)

Section verify_run.
Variables (c : dict value) (maxLength : nat) (names : list string).
Hypothesis c_objects : ∀ kv, kv ∈ c → kv.2 ≠ EMPTY.

Lemma verify_body_run name inc :
  verify_body c maxLength names name inc =
    ([entry_of c maxLength name], inr (missing_step c names inc name)).
Proof.
  unfold verify_body, entry_of, missing_step, diff_of, dict_getitem.
  destruct (dict_get name c) as [v|] eqn:Hget.
  - assert (Hin : dict_in name c = true) by (apply dict_in_true; by eexists).
    rewrite Hin. apply dict_get_Some_elem, c_objects in Hget.
    destruct v as [|deps]; [done|]. cbn. by case_decide.
  - assert (Hin : dict_in name c = false).
    { apply not_true_is_false. rewrite dict_in_true, Hget. by intros [? ?]. }
    by rewrite Hin.
Qed.

Lemma verify_loop_run todo inc :
  for_in todo (verify_body c maxLength names) inc =
    (entry_of c maxLength <$> todo, inr (foldl (missing_step c names) inc todo)).
Proof.
  revert inc. induction todo as [|name todo IH]; intros inc; [done|].
  cbn [for_in]. rewrite verify_body_run.
  erewrite bind_returns by reflexivity. by rewrite IH.
Qed.

End verify_run.

Lemma verdict_run maxLength inc :
  verdict maxLength inc = (verdict_lines maxLength inc, inr tt).
Proof.
  unfold verdict, verdict_lines. case_decide; [|done].
  rewrite for_in_print. done.
Qed.

(** All of [verify] on what [main] hands over. *)
Lemma verify_run (doc : document) (objectlist : string) (names : list string) :
  let c := Content (split_content doc) in
  let w := column_width c in
  verify (split_content doc) objectlist names =
    if decide (c = []) then ([], inl ValueError)
    else
      (VerifyHeader (doc_library doc) (length names) objectlist
       :: Columns w "DEPENDENCIES"
       :: (entry_of c w <$> names) ++ verdict_lines w (missing_of c names),
       inr (missing_of c names)).
Proof.
  intros c w. unfold verify. fold c.
  assert (Hc : ∀ kv, kv ∈ c → kv.2 ≠ EMPTY) by apply Content_no_EMPTY.
  destruct (decide (c = [])) as [->|Hne]; [done|].
  unfold w, column_width.
  destruct (max_list (String.length <$> dict_keys c)) as [e|m] eqn:Hmax.
  { destruct c; [done|discriminate]. }
  unfold lift, print. io_step.
  rewrite verify_loop_run by exact Hc. io_step.
  rewrite verdict_run. io_step.
  by rewrite app_nil_r.
Qed.

(** ** What the loop of [verify] records *)

Lemma dict_nil_get {V} (d : dict V) : d = [] ↔ ∀ k, dict_get k d = None.
Proof.
  split; [by intros ->|]. destruct d as [|[k v] d]; [done|].
  intros H. specialize (H k). cbn in H. by rewrite decide_True in H.
Qed.

Section missing.
Variables (c : dict value) (names : list string).

Lemma diff_of_Some name d :
  NoDup (dict_keys c) →
  diff_of c names name = Some d ↔
  ∃ deps, (name, Object deps) ∈ c ∧
          d = list_to_set deps ∖ list_to_set names ∧ d ≠ ∅.
Proof.
  intros Hnd. unfold diff_of. split.
  - destruct (dict_get name c) as [[|deps]|] eqn:Hget; try done.
    cbn. case_decide as Hd; [|done]. intros [= <-].
    exists deps. split; [by apply dict_get_Some_elem|done].
  - intros (deps & Hin & -> & Hd).
    rewrite (dict_elem_get c name (Object deps) Hnd Hin). cbn.
    by rewrite decide_True.
Qed.

Lemma missing_step_get inc name k :
  dict_get k (missing_step c names inc name) =
    match (if decide (k = name) then diff_of c names k else None) with
    | Some d => Some d
    | None => dict_get k inc
    end.
Proof.
  unfold missing_step. destruct (decide (k = name)) as [->|Hne].
  - destruct (diff_of c names name) as [d|]; [|done].
    by rewrite dict_get_set, decide_True.
  - destruct (diff_of c names name) as [d|]; [|done].
    by rewrite dict_get_set, decide_False.
Qed.

Lemma missing_fold_get todo inc k :
  dict_get k (foldl (missing_step c names) inc todo) =
    match (if decide (k ∈ todo) then diff_of c names k else None) with
    | Some d => Some d
    | None => dict_get k inc
    end.
Proof.
  revert inc. induction todo as [|name todo IH]; intros inc; cbn [foldl].
  - by rewrite decide_False by apply not_elem_of_nil.
  - rewrite IH, missing_step_get.
    destruct (decide (k = name)) as [->|Hne].
    + rewrite (decide_True (P := name ∈ name :: todo)) by left.
      destruct (decide (name ∈ todo)); [|done].
      by destruct (diff_of c names name).
    + destruct (decide (k ∈ todo)) as [Hin|Hin].
      * by rewrite (decide_True (P := k ∈ name :: todo)) by (by right).
      * rewrite (decide_False (P := k ∈ name :: todo)); [done|].
        rewrite elem_of_cons. tauto.
Qed.

Lemma missing_fold_elem todo inc k d :
  (k, d) ∈ foldl (missing_step c names) inc todo →
  (k, d) ∈ inc ∨ (k ∈ todo ∧ diff_of c names k = Some d).
Proof.
  revert inc. induction todo as [|name todo IH]; intros inc; cbn [foldl].
  - by left.
  - intros [Hin|[Hin Hd]]%IH.
    + unfold missing_step in Hin.
      destruct (diff_of c names name) as [d'|] eqn:Hd'; [|by left].
      apply dict_set_elem in Hin as [Hin|[-> ->]]; [by left|].
      right. split; [left|done].
    + right. split; [by right|done].
Qed.

Lemma missing_of_get k :
  dict_get k (missing_of c names) =
    if decide (k ∈ names) then diff_of c names k else None.
Proof.
  unfold missing_of. rewrite missing_fold_get.
  by destruct (decide (k ∈ names)); [destruct (diff_of c names k)|].
Qed.

Lemma missing_of_elem k d :
  (k, d) ∈ missing_of c names → k ∈ names ∧ diff_of c names k = Some d.
Proof.
  intros [Hin|H]%missing_fold_elem; [|done]. by apply elem_of_nil in Hin.
Qed.

(** Nothing is recorded exactly when no listed object file lacks one of
    its dependencies. *)
Lemma missing_of_nil :
  missing_of c names = [] ↔ ∀ k, k ∈ names → diff_of c names k = None.
Proof.
  rewrite dict_nil_get. split.
  - intros H k Hk. specialize (H k). rewrite missing_of_get in H.
    by rewrite decide_True in H.
  - intros H k. rewrite missing_of_get. case_decide; [by apply H|done].
Qed.

Lemma entry_of_cases w name :
  entry_of c w name = NotFound name ∨
  ∃ deps, entry_of c w name = DepLine w name deps.
Proof.
  unfold entry_of. destruct (dict_get name c) as [[|deps]|]; eauto.
Qed.

End missing.

(** ** The result of [verify] *)

Lemma has_object_Content (doc : document) :
  has_object doc → Content (split_content doc) ≠ [].
Proof.
  intros (k & deps & Hin). apply Content_elem in Hin.
  intros Heq. rewrite Heq in Hin. by apply elem_of_nil in Hin.
Qed.

Lemma no_object_Content (doc : document) :
  (∀ k v, (k, v) ∈ doc_Content doc → v = EMPTY) →
  Content (split_content doc) = [].
Proof.
  intros Hall. destruct (Content (split_content doc)) as [|[k v] c] eqn:Hc;
    [done|].
  assert (Hin : (k, v) ∈ Content (split_content doc)) by (rewrite Hc; left).
  pose proof (Content_no_EMPTY doc _ Hin) as Hv.
  apply Content_subseteq, Hall in Hin. done.
Qed.

(** A name that [main] has removed from ["Content"], or that was never
    there, is not a key of the dictionary [verify] looks into. *)
Lemma EMPTY_not_in_Content (doc : document) name :
  NoDup (dict_keys (doc_Content doc)) →
  (name, EMPTY) ∈ doc_Content doc →
  dict_get name (Content (split_content doc)) = None.
Proof.
  intros Hnd Hin.
  destruct (dict_get name (Content (split_content doc))) as [v|] eqn:Hget;
    [|done].
  apply dict_get_Some_elem in Hget.
  pose proof (Content_no_EMPTY doc _ Hget) as Hv.
  apply Content_subseteq in Hget.
  apply (dict_elem_get _ _ _ Hnd) in Hget, Hin. cbn in Hv. congruence.
Qed.

Lemma absent_not_in_Content (doc : document) name :
  name ∉ dict_keys (doc_Content doc) →
  dict_get name (Content (split_content doc)) = None.
Proof.
  intros Hout. apply dict_get_None. intros Hin. apply Hout.
  eapply elem_of_sublist; [exact Hin|].
  unfold dict_keys. apply fmap_sublist, Content_sublist.
Qed.

Section verify_result.
Variables (doc : document) (objectlist : string) (names : list string).
Let c := Content (split_content doc).
Let w := column_width c.
Let out : list line :=
  VerifyHeader (doc_library doc) (length names) objectlist
  :: Columns w "DEPENDENCIES"
  :: (entry_of c w <$> names) ++ verdict_lines w (missing_of c names).

Lemma verify_returns :
  has_object doc →
  verify (split_content doc) objectlist names = (out, inr (missing_of c names)).
Proof.
  intros Hobj. rewrite verify_run. fold c.
  by rewrite decide_False by apply has_object_Content, Hobj.
Qed.

Lemma out_elem l :
  l ∈ out ↔
  l = VerifyHeader (doc_library doc) (length names) objectlist ∨
  l = Columns w "DEPENDENCIES" ∨
  (∃ name, name ∈ names ∧ l = entry_of c w name) ∨
  l ∈ verdict_lines w (missing_of c names).
Proof.
  unfold out. rewrite !elem_of_cons, elem_of_app, list_elem_of_fmap. split.
  - intros [?|[?|[(name & -> & ?)|?]]]; eauto 10.
  - intros [?|[?|[(name & ? & ->)|?]]]; eauto 10.
Qed.

Lemma verdict_lines_elem l :
  l ∈ verdict_lines w (missing_of c names) ↔
  (l = Complete ∧ missing_of c names = []) ∨
  (missing_of c names ≠ [] ∧
   (l = Incomplete ∨ l = Columns w "MISSING_DEPENDENCIES" ∨
    ∃ k d, (k, d) ∈ missing_of c names ∧ l = MissingLine w k d)).
Proof.
  unfold verdict_lines. case_decide as Hinc.
  - rewrite !elem_of_cons, list_elem_of_fmap. split.
    + intros [->|[->|([k d] & -> & Hin)]]; right; eauto 10.
    + intros [[_ ?]|[_ [->|[->|(k & d & Hin & ->)]]]]; [done|auto..].
      right; right. by exists (k, d).
  - rewrite list_elem_of_singleton. tauto.
Qed.

Lemma out_Complete : Complete ∈ out ↔ missing_of c names = [].
Proof.
  rewrite out_elem, verdict_lines_elem. split.
  - intros [?|[?|[(name & _ & Heq)|[[_ ?]|[_ H]]]]]; try done.
    + by destruct (entry_of_cases c w name) as [H|[deps H]]; rewrite H in Heq.
    + destruct H as [?|[?|(k & d & _ & ?)]]; done.
  - intros Hnil. do 3 right. by left.
Qed.

Lemma out_Incomplete : Incomplete ∈ out ↔ missing_of c names ≠ [].
Proof.
  rewrite out_elem, verdict_lines_elem. split.
  - intros [?|[?|[(name & _ & Heq)|[[? _]|[H _]]]]]; try done.
    by destruct (entry_of_cases c w name) as [H|[deps H]]; rewrite H in Heq.
  - intros Hne. do 3 right. right. split; [done|by left].
Qed.

Lemma out_NotFound name :
  name ∈ names → dict_get name c = None → NotFound name ∈ out.
Proof.
  intros Hin Hget. apply out_elem. do 2 right. left.
  exists name. split; [done|]. unfold entry_of. by rewrite Hget.
Qed.

Lemma out_DepLine maxLength name deps :
  DepLine maxLength name deps ∈ out → dict_get name c = Some (Object deps).
Proof.
  rewrite out_elem, verdict_lines_elem.
  intros [?|[?|[(name' & _ & Heq)|[[? _]|[_ H]]]]]; try done.
  - unfold entry_of in Heq.
    destruct (dict_get name' c) as [[|deps']|] eqn:Hget; try done.
    by injection Heq as -> -> ->.
  - destruct H as [?|[?|(k & d & _ & ?)]]; done.
Qed.

Lemma out_MissingLine maxLength name d :
  MissingLine maxLength name d ∈ out → (name, d) ∈ missing_of c names.
Proof.
  rewrite out_elem, verdict_lines_elem.
  intros [?|[?|[(name' & _ & Heq)|[[? _]|[_ H]]]]]; try done.
  - by destruct (entry_of_cases c w name') as [H|[deps H]]; rewrite H in Heq.
  - destruct H as [?|[?|(k & d' & Hin & Heq)]]; try done.
    by injection Heq as _ -> ->.
Qed.

End verify_result.

(** ** Verdict and missing dependencies *)

(** On a document with a non-empty object file, [verify] returns, records
    for each listed object file of the library the non-empty difference
    between its dependencies and the list, and prints COMPLETE exactly when
    it has recorded nothing, INCOMPLETE otherwise; the missing dependencies
    it then prints are the recorded ones. *)
Theorem verify_missing_exact (doc : document) objectlist (names : list string) :
  NoDup (dict_keys (doc_Content doc)) →
  has_object doc →
  ∃ out inc,
    verify (split_content doc) objectlist names = (out, inr inc) ∧
    (∀ name d,
       dict_get name inc = Some d ↔
       name ∈ names ∧
       ∃ deps, (name, Object deps) ∈ doc_Content doc ∧
               d = list_to_set deps ∖ list_to_set names ∧ d ≠ ∅) ∧
    (Complete ∈ out ↔ inc = []) ∧
    (Incomplete ∈ out ↔ inc ≠ []) ∧
    (∀ maxLength name d,
       MissingLine maxLength name d ∈ out → dict_get name inc = Some d).
Proof.
  intros Hnd Hobj. eexists _, _. split; [by apply verify_returns|].
  pose proof (Content_NoDup doc Hnd) as Hnd'.
  assert (Hget : ∀ name d,
    dict_get name (missing_of (Content (split_content doc)) names) = Some d ↔
    name ∈ names ∧
    ∃ deps, (name, Object deps) ∈ doc_Content doc ∧
            d = list_to_set deps ∖ list_to_set names ∧ d ≠ ∅).
  { intros name d. rewrite missing_of_get. case_decide as Hin.
    - rewrite diff_of_Some by exact Hnd'. split.
      + intros (deps & Hd%Content_elem & ?). eauto.
      + intros (_ & deps & Hd%Content_elem & ?). eauto.
    - split; [done|]. by intros [? _]. }
  split; [exact Hget|]. split; [apply out_Complete|].
  split; [apply out_Incomplete|].
  intros maxLength name d [Hin Hd]%out_MissingLine%missing_of_elem.
  apply Hget. split; [done|].
  apply diff_of_Some in Hd as (deps & Hdeps%Content_elem & ?); eauto.
Qed.

Lemma verify_missing_exact_witness :
  NoDup (dict_keys (doc_Content lib_two)) ∧ has_object lib_two ∧
  ∃ out inc,
    verify (split_content lib_two) "list.txt" ["b.o"] = (out, inr inc) ∧
    (Incomplete ∈ out ↔ inc ≠ []).
Proof.
  assert (Hkeys : NoDup (dict_keys (doc_Content lib_two))).
  { apply (bool_decide_unpack _). vm_compute. exact I. }
  assert (Hobj : has_object lib_two).
  { exists "a.o", []. apply (bool_decide_unpack _). vm_compute. exact I. }
  split; [exact Hkeys|]. split; [exact Hobj|].
  destruct (verify_missing_exact lib_two "list.txt" ["b.o"] Hkeys Hobj)
    as (out & inc & Hrun & _ & _ & Hinc & _).
  by exists out, inc.
Defined.

(** C1: a library whose only object file is empty.  No dependency is
    missing, yet [verify] stops at [max] of an empty list and the program
    ends without any verdict. *)
Theorem verify_hollow_no_verdict :
  missing_of (Content (split_content lib_hollow)) ["a.o"] = [] ∧
  (main lib_hollow (Some ("list.txt", ["a.o"])) false = ([], inl ValueError)).
Proof. split; reflexivity. Qed.

(** ** Names that are not keys of ["Content"] *)

(** A listed name that the library does not have is reported as not found
    and nothing is recorded for it, whenever the library has a non-empty
    object file. *)
Theorem verify_absent_not_found (doc : document) objectlist names name :
  has_object doc →
  name ∈ names →
  name ∉ dict_keys (doc_Content doc) →
  ∃ out inc,
    verify (split_content doc) objectlist names = (out, inr inc) ∧
    NotFound name ∈ out ∧
    (∀ maxLength deps, DepLine maxLength name deps ∉ out) ∧
    dict_get name inc = None.
Proof.
  intros Hobj Hin Habs%absent_not_in_Content.
  eexists _, _. split; [by apply verify_returns|]. split; [|split].
  - by apply out_NotFound.
  - intros maxLength deps Hd%out_DepLine. congruence.
  - rewrite missing_of_get, decide_True by done.
    unfold diff_of. by rewrite Habs.
Qed.

Lemma verify_absent_not_found_witness :
  has_object lib_two ∧ "x.o" ∈ ["x.o"] ∧
  ("x.o" ∉ dict_keys (doc_Content lib_two)) ∧
  ∃ out inc,
    verify (split_content lib_two) "list.txt" ["x.o"] = (out, inr inc) ∧
    NotFound "x.o" ∈ out ∧
    (∀ maxLength deps, DepLine maxLength "x.o" deps ∉ out) ∧
    dict_get "x.o" inc = None.
Proof.
  assert (Hobj : has_object lib_two).
  { exists "a.o", []. apply (bool_decide_unpack _). vm_compute. exact I. }
  assert (Hin : "x.o" ∈ ["x.o"]) by left.
  assert (Habs : "x.o" ∉ dict_keys (doc_Content lib_two)).
  { apply (bool_decide_unpack _). vm_compute. exact I. }
  split; [exact Hobj|]. split; [exact Hin|]. split; [exact Habs|].
  exact (verify_absent_not_found lib_two "list.txt" ["x.o"] "x.o" Hobj Hin Habs).
Defined.

(** A list of names the library does not have is COMPLETE, whenever the
    library has a non-empty object file. *)
Theorem verify_only_absent (doc : document) objectlist names :
  has_object doc →
  (∀ name, name ∈ names → name ∉ dict_keys (doc_Content doc)) →
  ∃ out,
    verify (split_content doc) objectlist names = (out, inr []) ∧
    Complete ∈ out ∧ Incomplete ∉ out.
Proof.
  intros Hobj Habs.
  assert (Hnil : missing_of (Content (split_content doc)) names = []).
  { apply missing_of_nil. intros k Hk. unfold diff_of.
    by rewrite (absent_not_in_Content doc k (Habs k Hk)). }
  eexists. rewrite (verify_returns doc objectlist names Hobj), Hnil.
  split; [reflexivity|]. rewrite <- Hnil at 1 2. split.
  - by apply out_Complete.
  - rewrite out_Incomplete. by intros H.
Qed.

Lemma verify_only_absent_witness :
  has_object lib_two ∧
  ∃ out,
    verify (split_content lib_two) "list.txt" ["x.o"] = (out, inr []) ∧
    Complete ∈ out ∧ Incomplete ∉ out.
Proof.
  assert (Hobj : has_object lib_two).
  { exists "a.o", []. apply (bool_decide_unpack _). vm_compute. exact I. }
  split; [exact Hobj|].
  apply (verify_only_absent lib_two "list.txt" ["x.o"] Hobj).
  intros name ->%list_elem_of_singleton.
  apply (bool_decide_unpack _). vm_compute. exact I.
Defined.

(** C5: a library without object files and a list with one name that the
    library does not have.  [verify] raises [ValueError] before its loop:
    no "not found" line is printed and no verdict either. *)
Theorem verify_none_absent_name :
  ("x.o" ∉ dict_keys (doc_Content lib_none)) ∧
  (main lib_none (Some ("list.txt", ["x.o"])) false = ([], inl ValueError)).
Proof. split; [apply not_elem_of_nil|reflexivity]. Qed.

(** ** Empty object files in the list *)

(** C4, as stated, fails: the empty object file ["a.o"] of [lib_mixed] is
    listed, and [verify] reports it as not found instead of printing it
    with no dependencies. *)
Lemma verify_EMPTY_entry_counterexample :
  ("a.o", EMPTY) ∈ doc_Content lib_mixed ∧
  NotFound "a.o" ∈
    stdout (verify (split_content lib_mixed) "list.txt" ["a.o"]) ∧
  ∀ maxLength,
    DepLine maxLength "a.o" [] ∉
      stdout (verify (split_content lib_mixed) "list.txt" ["a.o"]).
Proof.
  split; [left|]. split.
  - apply (bool_decide_unpack _). vm_compute. exact I.
  - intros maxLength Hin. vm_compute in Hin.
    repeat (apply elem_of_cons in Hin as [Hin|Hin]; [discriminate Hin|]).
    by apply elem_of_nil in Hin.
Qed.

(** C4, amended: [main] removes the empty object files from ["Content"]
    before [verify] runs, so a listed name of an empty object file is
    reported as not found, is never printed with a dependency list, and has
    nothing recorded as missing, whenever the library has a non-empty object
    file. *)
Theorem verify_EMPTY_not_found (doc : document) objectlist names name :
  NoDup (dict_keys (doc_Content doc)) →
  has_object doc →
  (name, EMPTY) ∈ doc_Content doc →
  name ∈ names →
  ∃ out inc,
    verify (split_content doc) objectlist names = (out, inr inc) ∧
    NotFound name ∈ out ∧
    (∀ maxLength deps, DepLine maxLength name deps ∉ out) ∧
    dict_get name inc = None.
Proof.
  intros Hnd Hobj Hemp Hin.
  pose proof (EMPTY_not_in_Content doc name Hnd Hemp) as Hget.
  eexists _, _. split; [by apply verify_returns|]. split; [|split].
  - by apply out_NotFound.
  - intros maxLength deps Hd%out_DepLine. congruence.
  - rewrite missing_of_get, decide_True by done.
    unfold diff_of. by rewrite Hget.
Qed.

Lemma verify_EMPTY_not_found_witness :
  NoDup (dict_keys (doc_Content lib_mixed)) ∧ has_object lib_mixed ∧
  ("a.o", EMPTY) ∈ doc_Content lib_mixed ∧ "a.o" ∈ ["a.o"; "b.o"] ∧
  ∃ out inc,
    verify (split_content lib_mixed) "list.txt" ["a.o"; "b.o"]
      = (out, inr inc) ∧
    NotFound "a.o" ∈ out ∧
    (∀ maxLength deps, DepLine maxLength "a.o" deps ∉ out) ∧
    dict_get "a.o" inc = None.
Proof.
  assert (Hkeys : NoDup (dict_keys (doc_Content lib_mixed))).
  { apply (bool_decide_unpack _). vm_compute. exact I. }
  assert (Hobj : has_object lib_mixed).
  { exists "b.o", []. apply (bool_decide_unpack _). vm_compute. exact I. }
  assert (Hemp : ("a.o", EMPTY) ∈ doc_Content lib_mixed) by left.
  assert (Hin : "a.o" ∈ ["a.o"; "b.o"]) by left.
  split; [exact Hkeys|]. split; [exact Hobj|].
  split; [exact Hemp|]. split; [exact Hin|].
  exact (verify_EMPTY_not_found lib_mixed "list.txt" ["a.o"; "b.o"] "a.o"
           Hkeys Hobj Hemp Hin).
Defined.

(** ** Self-dependencies *)

(** C8: a listed object file that has itself among its dependencies never
    has its own name in the missing dependencies recorded or printed for
    it.  Nothing is special about the loop: whatever is recorded for an
    object file is the set of its dependencies that are not in the list. *)
Theorem verify_self_loop_not_missing (doc : document) objectlist names name deps :
  NoDup (dict_keys (doc_Content doc)) →
  (name, Object deps) ∈ doc_Content doc →
  name ∈ deps →
  name ∈ names →
  ∃ out inc,
    verify (split_content doc) objectlist names = (out, inr inc) ∧
    (∀ missingDep, dict_get name inc = Some missingDep → name ∉ missingDep) ∧
    (∀ maxLength missingDep,
       MissingLine maxLength name missingDep ∈ out → name ∉ missingDep) ∧
    (∀ k missingDep,
       dict_get k inc = Some missingDep →
       ∃ deps', (k, Object deps') ∈ doc_Content doc ∧
                ∀ dep, dep ∈ missingDep ↔ dep ∈ deps' ∧ dep ∉ names).
Proof.
  intros Hnd Hdeps Hself Hin.
  assert (Hobj : has_object doc) by (by exists name, deps).
  destruct (verify_missing_exact doc objectlist names Hnd Hobj)
    as (out & inc & Hrun & Hget & _ & _ & Hline).
  assert (Hmem : ∀ k missingDep,
    dict_get k inc = Some missingDep →
    ∃ deps', (k, Object deps') ∈ doc_Content doc ∧
             ∀ dep, dep ∈ missingDep ↔ dep ∈ deps' ∧ dep ∉ names).
  { intros k missingDep (_ & deps' & Hk & -> & _)%Hget.
    exists deps'. split; [done|]. intros dep.
    by rewrite elem_of_difference, !elem_of_list_to_set. }
  assert (Hno : ∀ missingDep, dict_get name inc = Some missingDep → name ∉ missingDep).
  { intros missingDep (deps' & _ & Hd)%Hmem Hbad. apply Hd in Hbad. tauto. }
  exists out, inc. split; [done|]. split; [done|]. split; [|done].
  intros maxLength missingDep Hl%Hline. by apply Hno.
Qed.

Lemma verify_self_loop_not_missing_witness :
  NoDup (dict_keys (doc_Content lib_loop)) ∧
  ("s.o", Object ["s.o"; "t.o"]) ∈ doc_Content lib_loop ∧
  "s.o" ∈ ["s.o"; "t.o"] ∧ "s.o" ∈ ["s.o"] ∧
  ∃ out inc,
    verify (split_content lib_loop) "list.txt" ["s.o"] = (out, inr inc) ∧
    (∀ missingDep, dict_get "s.o" inc = Some missingDep → "s.o" ∉ missingDep) ∧
    (∀ maxLength missingDep,
       MissingLine maxLength "s.o" missingDep ∈ out → "s.o" ∉ missingDep) ∧
    (∀ k missingDep,
       dict_get k inc = Some missingDep →
       ∃ deps', (k, Object deps') ∈ doc_Content lib_loop ∧
                ∀ dep, dep ∈ missingDep ↔ dep ∈ deps' ∧ dep ∉ ["s.o"]).
Proof.
  assert (Hkeys : NoDup (dict_keys (doc_Content lib_loop))).
  { apply (bool_decide_unpack _). vm_compute. exact I. }
  assert (Hdeps : ("s.o", Object ["s.o"; "t.o"]) ∈ doc_Content lib_loop) by left.
  assert (Hself : "s.o" ∈ ["s.o"; "t.o"]) by left.
  assert (Hin : "s.o" ∈ ["s.o"]) by left.
  split; [exact Hkeys|]. split; [exact Hdeps|].
  split; [exact Hself|]. split; [exact Hin|].
  exact (verify_self_loop_not_missing lib_loop "list.txt" ["s.o"] "s.o"
           ["s.o"; "t.o"] Hkeys Hdeps Hself Hin).
Defined.

(** In [lib_loop] the list with ["s.o"] alone lacks ["t.o"] and only it. *)
Example verify_loop_run_example :
  outcome (verify (split_content lib_loop) "list.txt" ["s.o"])
    = inr [("s.o", {["t.o"]})].
Proof. vm_compute. reflexivity. Qed.

(** ** The empty list *)

(** On a document with a non-empty object file the empty list gives the two
    header lines, the verdict COMPLETE and nothing recorded. *)
Theorem verify_empty_list (doc : document) objectlist :
  has_object doc →
  verify (split_content doc) objectlist [] =
    ([VerifyHeader (doc_library doc) 0 objectlist;
      Columns (column_width (Content (split_content doc))) "DEPENDENCIES";
      Complete],
     inr []).
Proof. intros Hobj. by rewrite (verify_returns doc objectlist [] Hobj). Qed.

Lemma verify_empty_list_witness :
  has_object lib_two ∧
  verify (split_content lib_two) "list.txt" [] =
    ([VerifyHeader "libtwo.a" 0 "list.txt"; Columns 8 "DEPENDENCIES"; Complete],
     inr []).
Proof.
  assert (Hobj : has_object lib_two).
  { exists "a.o", []. apply (bool_decide_unpack _). vm_compute. exact I. }
  split; [exact Hobj|].
  exact (verify_empty_list lib_two "list.txt" Hobj).
Defined.

(** C9: the empty list on a library whose only object file is empty.
    [verify] raises [ValueError] instead of returning the empty result. *)
Theorem verify_hollow_empty_list :
  verify (split_content lib_hollow) "list.txt" [] = ([], inl ValueError) ∧
  (main lib_hollow (Some ("list.txt", [])) false = ([], inl ValueError)).
Proof. split; reflexivity. Qed.

(** ** Libraries without a non-empty object file *)

(** C10: when every object file of the document is empty, [verify] raises
    [ValueError] (the [max] of no name length) whatever the list is; it has
    printed nothing by then, so no name of the list has been looked at, and
    the exception ends [main]. *)
Theorem verify_no_object_fails (doc : document) objectlist names e :
  (∀ k v, (k, v) ∈ doc_Content doc → v = EMPTY) →
  verify (split_content doc) objectlist names = ([], inl ValueError) ∧
  (main doc (Some (objectlist, names)) e = ([], inl ValueError)).
Proof.
  intros Hall%no_object_Content.
  assert (Hv : verify (split_content doc) objectlist names = ([], inl ValueError)).
  { rewrite verify_run. cbv zeta. by rewrite decide_True. }
  split; [exact Hv|]. unfold main. by rewrite Hv.
Qed.

Lemma verify_no_object_fails_witness :
  (∀ k v, (k, v) ∈ doc_Content lib_hollow → v = EMPTY) ∧
  verify (split_content lib_hollow) "list.txt" ["a.o"; "b.o"]
    = ([], inl ValueError) ∧
  (main lib_hollow (Some ("list.txt", ["a.o"; "b.o"])) true
    = ([], inl ValueError)).
Proof.
  assert (Hall : ∀ k v, (k, v) ∈ doc_Content lib_hollow → v = EMPTY).
  { intros k v Hin. apply list_elem_of_singleton in Hin. congruence. }
  split; [exact Hall|].
  exact (verify_no_object_fails lib_hollow "list.txt" ["a.o"; "b.o"] true Hall).
Defined.

(** ** Division by zero *)

(** On a document without a non-empty object file [printLeaves] divides by
    zero: [ZeroDivisionError] ends the program after the two header lines. *)
Theorem printLeaves_no_object (doc : document) :
  (∀ k v, (k, v) ∈ doc_Content doc → v = EMPTY) →
  main doc None false =
    ([LeavesHeader (doc_library doc); StatsHeader], inl ZeroDivisionError).
Proof.
  intros Hall. unfold main. rewrite printLeaves_run. cbv zeta.
  assert (Hleaves : leaf_names (doc_Content doc) = []).
  { destruct (leaf_names (doc_Content doc)) as [|k l] eqn:Hl; [done|].
    assert (Hk : k ∈ leaf_names (doc_Content doc)) by (rewrite Hl; left).
    apply leaf_names_elem, Hall in Hk. done. }
  by rewrite (no_object_Content doc Hall), Hleaves.
Qed.

Lemma printLeaves_no_object_witness :
  (∀ k v, (k, v) ∈ doc_Content lib_none → v = EMPTY) ∧
  (main lib_none None false =
    ([LeavesHeader "libnone.a"; StatsHeader], inl ZeroDivisionError)).
Proof.
  assert (Hall : ∀ k v, (k, v) ∈ doc_Content lib_none → v = EMPTY).
  { intros k v Hin. by apply elem_of_nil in Hin. }
  split; [exact Hall|]. exact (printLeaves_no_object lib_none Hall).
Defined.

(** [printEmpty], next to it, only divides when there is an empty object
    file: it never raises. *)
Theorem printEmpty_returns (doc : document) :
  outcome (main doc None true) = inr tt.
Proof.
  unfold main, printEmpty.
  destruct (Empty (split_content doc)) as [|k l] eqn:Hemp; [done|].
  rewrite decide_True by done.
  pose proof (for_in_print (k :: l) Item) as Hloop.
  unfold print in *. io_step. rewrite Hloop. io_step. unfold ratio100.
  rewrite decide_False by (cbn; lia). done.
Qed.

(** C3: a library whose only object file is empty.  The statistics of
    [printLeaves] divide by the number of non-empty object files, which is
    zero: Python raises [ZeroDivisionError], nothing catches it and the
    program ends with a traceback after two lines of output. *)
Theorem printLeaves_hollow_crash :
  length (Content (split_content lib_hollow)) = 0 ∧
  (main lib_hollow None false =
    ([LeavesHeader "libhollow.a"; StatsHeader], inl ZeroDivisionError)).
Proof. split; reflexivity. Qed.

(** ** Percentages *)

(** The percentage in each statistics line is [PyFloat.percent]. *)
Lemma ratio100_percent (a b : nat) :
  b ≠ 0 →
  ratio100 a b ≫= (λ r, mret (PyFloat.format_0f r))
    = ([], inr (PyFloat.percent a b)).
Proof. intros Hb. unfold ratio100. by rewrite decide_False. Qed.

Lemma round_half_even_nearest (m : positive) (e : Z) :
  nearest_ties_even m e (PyFloat.round_half_even m e).
Proof.
  unfold nearest_ties_even, PyFloat.round_half_even.
  destruct (Z.leb_spec 0 e) as [He|He].
  - rewrite (Z.max_l 0 (- e)), (Z.max_r 0 e) by lia.
    change (2 ^ 0)%Z with 1%Z. split; [lia|]. intros H. lia.
  - rewrite (Z.max_r 0 (- e)), (Z.max_l 0 e) by lia.
    change (2 ^ 0)%Z with 1%Z.
    assert (Hd : (0 < 2 ^ (- e))%Z) by (apply Z.pow_pos_nonneg; lia).
    set (d := (2 ^ (- e))%Z) in *.
    pose proof (Z.div_mod (Z.pos m) d ltac:(lia)) as Hm.
    pose proof (Z.mod_pos_bound (Z.pos m) d Hd) as Hr.
    set (q := (Z.pos m / d)%Z) in *. set (r := (Z.pos m mod d)%Z) in *.
    assert (Hq : (q * d = Z.pos m - r)%Z) by lia.
    destruct (Z.ltb_spec (2 * r) d) as [Hlt|Hge].
    { rewrite Hq. split; [lia|]. intros H. lia. }
    destruct (Z.ltb_spec d (2 * r)) as [Hgt|Hle].
    { replace ((q + 1) * d)%Z with (Z.pos m - r + d)%Z by lia.
      split; [lia|]. intros H. lia. }
    destruct (Z.even q) eqn:Heven.
    + rewrite Hq. split; [lia|done].
    + replace ((q + 1) * d)%Z with (Z.pos m - r + d)%Z by lia.
      split; [lia|]. intros _.
      rewrite Z.add_1_r, Z.even_succ, <- Z.negb_even. by rewrite Heven.
Qed.

(** At most one integer is nearest with the tie going to the even one. *)
Lemma nearest_ties_even_unique (m : positive) (e p p' : Z) :
  nearest_ties_even m e p → nearest_ties_even m e p' → p = p'.
Proof.
  unfold nearest_ties_even.
  assert (Hd : (0 < 2 ^ Z.max 0 (- e))%Z) by (apply Z.pow_pos_nonneg; lia).
  set (d := (2 ^ Z.max 0 (- e))%Z) in *.
  generalize (Z.pos m * 2 ^ Z.max 0 e)%Z; intros num [Hp Hpe] [Hp' Hpe'].
  assert (Hclose : (-1 ≤ p - p' ≤ 1)%Z) by nia.
  destruct (decide (p = p')) as [|Hne]; [done|exfalso].
  assert (Hcases : (p' = p + 1 ∨ p = p' + 1)%Z) by lia.
  destruct Hcases as [->| ->].
  - assert (H1 : Z.abs (2 * (p * d - num)) = d) by nia.
    assert (H2 : Z.abs (2 * ((p + 1) * d - num)) = d) by nia.
    apply Hpe in H1. apply Hpe' in H2.
    rewrite Z.add_1_r, Z.even_succ, <- Z.negb_even, H1 in H2. done.
  - assert (H1 : Z.abs (2 * (p' * d - num)) = d) by nia.
    assert (H2 : Z.abs (2 * ((p' + 1) * d - num)) = d) by nia.
    apply Hpe' in H1. apply Hpe in H2.
    rewrite Z.add_1_r, Z.even_succ, <- Z.negb_even, H1 in H2. done.
Qed.

(** C6, as stated, fails: one independent object file among eight is 12.5%,
    which a half going up makes 13; [printLeaves] prints 12. *)
Lemma percent_half_up_counterexample :
  percent_half_up 1 8 = 13%Z ∧
  PyFloat.times100 (PyFloat.div 1 8)
    = S754_finite false 7036874417766400 (-49) ∧
  (2 * 7036874417766400 = 25 * 2 ^ 49)%Z ∧
  stdout (main lib_eight None false) =
    [LeavesHeader "libeight.a"; Item "o1.o"; StatsHeader;
     StatNonEmpty 1 8 "12"; StatAll 1 8 "12"] ∧
  render (StatNonEmpty 1 8 "12") =
    "- 1/8 of all non-empty object files or about 12%.".
Proof. repeat split; vm_compute; reflexivity. Qed.

(** C6, amended: a percentage is the binary64 number [(a / b) * 100]
    written with no decimals.  Whenever that number is zero or positive and
    finite, what is printed is the decimal numeral of the integer nearest
    to it, and of the even one of the two nearest when it lies halfway
    between them (12.5 is printed 12). *)
Theorem percent_nearest_ties_even (a b : nat) :
  is_percentage (PyFloat.times100 (PyFloat.div a b)) = true →
  ∃ p : Z,
    PyFloat.percent a b = pretty p ∧
    rounds_to (PyFloat.times100 (PyFloat.div a b)) p.
Proof.
  unfold PyFloat.percent.
  destruct (PyFloat.times100 (PyFloat.div a b)) as [[]| | |[] m e];
    try discriminate; intros _.
  - by exists 0%Z.
  - exists (PyFloat.round_half_even m e). split; [done|].
    apply round_half_even_nearest.
Qed.

Lemma percent_nearest_ties_even_witness :
  is_percentage (PyFloat.times100 (PyFloat.div 1 8)) = true ∧
  ∃ p : Z,
    PyFloat.percent 1 8 = pretty p ∧
    rounds_to (PyFloat.times100 (PyFloat.div 1 8)) p.
Proof.
  assert (Hx : is_percentage (PyFloat.times100 (PyFloat.div 1 8)) = true).
  { vm_compute. reflexivity. }
  split; [exact Hx|].
  exact (percent_nearest_ties_even 1 8 Hx).
Defined.

(** The integer of the statement above is 12 for one in eight. *)
Example percent_1_8 :
  PyFloat.percent 1 8 = pretty 12%Z ∧
  rounds_to (PyFloat.times100 (PyFloat.div 1 8)) 12.
Proof.
  split; [vm_compute; reflexivity|].
  change (nearest_ties_even 7036874417766400 (-49) 12).
  unfold nearest_ties_even. split; [by vm_compute|]. intros _. reflexivity.
Qed.

(** For counts up to a hundred the number [(a / b) * 100] is zero or a
    positive finite number: the amended statement applies to it. *)
Lemma percent_defined_small :
  Forall (λ ab, is_percentage (PyFloat.times100 (PyFloat.div ab.1 ab.2)) = true)
    (count_pairs 100).
Proof. apply (bool_decide_unpack _). vm_compute. exact I. Qed.

(** The counts up to forty whose printed percentage is not the half-up
    rounding of the exact ratio.  All are exact halves; 23/40 is 57.5 but
    the binary64 product is just below it, and 57 is printed although 58 is
    the even neighbour. *)
Lemma percent_differs_small :
  filter (λ ab, PyFloat.percent ab.1 ab.2 ≠ pretty (percent_half_up ab.1 ab.2))
    (count_pairs 40) =
  [(1, 8); (5, 8); (2, 16); (10, 16); (3, 24); (15, 24); (4, 32); (20, 32);
   (1, 40); (5, 40); (9, 40); (13, 40); (17, 40); (21, 40); (23, 40);
   (25, 40); (29, 40); (33, 40); (37, 40)].
Proof. vm_compute. reflexivity. Qed.

Example percent_23_40 :
  PyFloat.times100 (PyFloat.div 23 40)
    = S754_finite false 8092405580431359 (-47) ∧
  (8092405580431359 * 2 < 115 * 2 ^ 47)%Z ∧
  PyFloat.percent 23 40 = "57".
Proof. repeat split; vm_compute; reflexivity. Qed.

(** All of [printEmpty] on what [main] hands over. *)
Lemma printEmpty_run (doc : document) :
  let sd := split_content doc in
  let ne := length (Empty sd) in
  let n := length (Content sd) in
  printEmpty sd =
    if decide (Empty sd ≠ []) then
      (EmptyHeader (doc_library doc) :: (Item <$> Empty sd) ++
         [StatEmpty ne (ne + n) (PyFloat.percent ne (n + ne))],
       inr tt)
    else ([NoEmpty (doc_library doc)], inr tt).
Proof.
  intros sd ne n. unfold printEmpty. fold sd.
  case_decide as Hemp; [|done].
  pose proof (for_in_print (Empty sd) Item) as Hloop.
  assert (Hne : n + ne ≠ 0).
  { unfold ne. destruct (Empty sd); [done|cbn; lia]. }
  unfold print in *. io_step. rewrite Hloop. io_step.
  fold ne n. unfold ratio100. rewrite decide_False by exact Hne.
  io_step. reflexivity.
Qed.

(** * Further properties of the script *)

(** ** More on dictionaries and on ["Content"] *)





Lemma Content_nil_iff (doc : document) :
  Content (split_content doc) = [] ↔ ¬ has_object doc.
Proof.
  split.
  - intros Hnil Hobj. by apply has_object_Content in Hobj.
  - intros Hno.
    destruct (Content (split_content doc)) as [|[k v] c] eqn:Hc; [done|].
    exfalso. apply Hno.
    assert (Hin : (k, v) ∈ Content (split_content doc)) by (rewrite Hc; left).
    pose proof (Content_no_EMPTY doc _ Hin) as Hv. cbn in Hv.
    destruct v as [|deps]; [done|].
    exists k, deps. by apply Content_elem.
Qed.

Lemma Content_ne_has_object (doc : document) :
  Content (split_content doc) ≠ [] → has_object doc.
Proof.
  destruct (Content (split_content doc)) as [|[k v] c] eqn:Hc; [done|].
  intros _.
  assert (Hin : (k, v) ∈ Content (split_content doc)) by (rewrite Hc; left).
  pose proof (Content_no_EMPTY doc _ Hin) as Hv. cbn in Hv.
  destruct v as [|deps]; [done|].
  exists k, deps. by apply Content_elem.
Qed.

Lemma max_list_bound (l : list nat) m x :
  max_list l = inr m → x ∈ l → (x ≤ m)%nat.
Proof.
  destruct l as [|y l]; [done|]. cbn. intros [= <-].
  induction l as [|z l IH]; cbn.
  - intros ->%list_elem_of_singleton. done.
  - rewrite !elem_of_cons. intros [->|[->|Hin]].
    + assert (Hy : (y ≤ foldr Nat.max y l)%nat) by (apply IH; left). lia.
    + lia.
    + assert (Hx : (x ≤ foldr Nat.max y l)%nat) by (apply IH; by right). lia.
Qed.

(** ** Strings *)

Lemma append_cons (a : ascii) (s t : string) :
  String a s +:+ t = String a (s +:+ t).
Proof. reflexivity. Qed.

Lemma length_append (s t : string) :
  String.length (s +:+ t) = String.length s + String.length t.
Proof.
  induction s as [|a s IH]; [done|].
  rewrite append_cons. cbn [String.length]. by rewrite IH.
Qed.

Lemma length_spaces (n : nat) : String.length (spaces n) = n.
Proof. induction n as [|n IH]; cbn; [done|]. f_equal. exact IH. Qed.

Lemma append_assoc (s t u : string) : (s +:+ t) +:+ u = s +:+ t +:+ u.
Proof.
  induction s as [|a s IH]; [done|]. rewrite !append_cons. by rewrite IH.
Qed.

Lemma substring_prefix (s t : string) :
  String.substring 0 (String.length s) (s +:+ t) = s.
Proof.
  induction s as [|a s IH].
  - by destruct t.
  - rewrite append_cons. cbn [String.length String.substring]. by rewrite IH.
Qed.

(** The text [sep] sits in [pad +:+ sep +:+ rest] right after [pad]. *)
Lemma substring_after (pad sep rest : string) :
  String.substring (String.length pad) (String.length sep)
    (pad +:+ sep +:+ rest) = sep.
Proof.
  induction pad as [|a pad IH]; [exact (substring_prefix sep rest)|].
  rewrite append_cons. cbn [String.length String.substring]. exact IH.
Qed.

(** ** What [verify] records and prints, in full *)



(** The listing follows the list: after the two header lines comes one line
    per listed name, in the order of the list and with repetitions, which
    shows the dependencies of the name when it is a non-empty object file of
    the library and says that it was not found otherwise; the verdict comes
    last. *)
Theorem verify_entries_in_order (doc : document) objectlist names :
  NoDup (dict_keys (doc_Content doc)) →
  has_object doc →
  let w := column_width (Content (split_content doc)) in
  ∃ entries rest,
    stdout (verify (split_content doc) objectlist names) =
      VerifyHeader (doc_library doc) (length names) objectlist
      :: Columns w "DEPENDENCIES" :: (entries ++ rest)%list ∧
    length entries = length names ∧
    (∀ i name,
       names !! i = Some name →
       (entries !! i = Some (NotFound name) ∧
        ∀ deps, ¬ (name, Object deps) ∈ doc_Content doc) ∨
       (∃ deps, (name, Object deps) ∈ doc_Content doc ∧
                entries !! i = Some (DepLine w name deps))) ∧
    (rest = [Complete] ∨
     ∃ missing, rest = Incomplete :: Columns w "MISSING_DEPENDENCIES" :: missing).
Proof.
  intros Hnd Hobj w. pose proof (Content_NoDup doc Hnd) as Hnd'.
  set (c := Content (split_content doc)) in *.
  exists (entry_of c w <$> names), (verdict_lines w (missing_of c names)).
  split; [by rewrite (verify_returns doc objectlist names Hobj)|].
  split; [apply length_fmap|]. split.
  - intros i name Hi.
    assert (Hentry : (entry_of c w <$> names) !! i = Some (entry_of c w name))
      by (by rewrite list_lookup_fmap, Hi).
    rewrite Hentry. unfold entry_of.
    destruct (dict_get name c) as [[|deps]|] eqn:Hget.
    + apply dict_get_Some_elem, Content_no_EMPTY in Hget. done.
    + right. exists deps. split; [|done].
      by apply Content_elem, dict_get_Some_elem.
    + left. split; [done|]. intros deps Hin%Content_elem.
      apply (dict_elem_get _ _ _ Hnd') in Hin. fold c in Hin. congruence.
  - unfold verdict_lines. case_decide; [right; by eexists|by left].
Qed.

Lemma verify_entries_in_order_witness :
  NoDup (dict_keys (doc_Content lib_mixed)) ∧ has_object lib_mixed ∧
  ∃ entries rest,
    stdout (verify (split_content lib_mixed) "list.txt" ["b.o"; "a.o"; "b.o"]) =
      VerifyHeader "libmixed.a" 3 "list.txt"
      :: Columns 8 "DEPENDENCIES" :: (entries ++ rest)%list ∧
    length entries = 3 ∧
    (∀ i name,
       ["b.o"; "a.o"; "b.o"] !! i = Some name →
       (entries !! i = Some (NotFound name) ∧
        ∀ deps, ¬ (name, Object deps) ∈ doc_Content lib_mixed) ∨
       (∃ deps, (name, Object deps) ∈ doc_Content lib_mixed ∧
                entries !! i = Some (DepLine 8 name deps))) ∧
    (rest = [Complete] ∨
     ∃ missing, rest = Incomplete :: Columns 8 "MISSING_DEPENDENCIES" :: missing).
Proof.
  assert (Hkeys : NoDup (dict_keys (doc_Content lib_mixed))).
  { apply (bool_decide_unpack _). vm_compute. exact I. }
  assert (Hobj : has_object lib_mixed).
  { exists "b.o", []. apply (bool_decide_unpack _). vm_compute. exact I. }
  split; [exact Hkeys|]. split; [exact Hobj|].
  exact (verify_entries_in_order lib_mixed "list.txt" ["b.o"; "a.o"; "b.o"]
           Hkeys Hobj).
Defined.

(** ** The verdict *)

Section verdict_meaning.
Variables (c : dict value).

Lemma diff_of_None names k :
  diff_of c names k = None ↔
  ∀ deps dep, dict_get k c = Some (Object deps) → dep ∈ deps → dep ∈ names.
Proof.
  unfold diff_of. destruct (dict_get k c) as [[|deps]|]; [by split| |by split].
  cbn zeta. case_decide as Hd; split.
  - done.
  - intros Hall. exfalso. apply set_choose_L in Hd as [dep Hdep].
    apply elem_of_difference in Hdep as [Hin Hout].
    rewrite elem_of_list_to_set in Hin, Hout. apply Hout.
    by apply (Hall deps).
  - intros _ deps' dep [= <-] Hin.
    destruct (decide (dep ∈ names)) as [|Hout]; [done|]. exfalso.
    assert (Hdep : dep ∈ (list_to_set deps ∖ list_to_set names : gset string)).
    { apply elem_of_difference. by rewrite !elem_of_list_to_set. }
    rewrite Hd in Hdep. by apply not_elem_of_empty in Hdep.
  - done.
Qed.

Lemma diff_of_mono names names' k :
  (∀ x, x ∈ names → x ∈ names') →
  diff_of c names k = None → diff_of c names' k = None.
Proof. rewrite !diff_of_None. intros Hsub Hall deps dep ??. eauto. Qed.

Lemma diff_of_ext names names' k :
  (∀ x, x ∈ names ↔ x ∈ names') → diff_of c names k = diff_of c names' k.
Proof.
  intros Hsame. unfold diff_of.
  assert (Heq : list_to_set names =@{gset string} list_to_set names').
  { apply set_eq. intros x. by rewrite !elem_of_list_to_set. }
  by rewrite Heq.
Qed.

End verdict_meaning.

Lemma missing_nil_iff_closed (doc : document) names :
  NoDup (dict_keys (doc_Content doc)) →
  missing_of (Content (split_content doc)) names = []
  ↔ closed_under_dependencies doc names.
Proof.
  intros Hnd. pose proof (Content_NoDup doc Hnd) as Hnd'.
  rewrite missing_of_nil. unfold closed_under_dependencies. split.
  - intros Hall name deps dep Hin Hdeps%Content_elem Hdep.
    apply (dict_elem_get _ _ _ Hnd') in Hdeps.
    specialize (Hall name Hin). rewrite diff_of_None in Hall. eauto.
  - intros Hall k Hk. apply diff_of_None. intros deps dep Hget Hdep.
    apply dict_get_Some_elem, Content_elem in Hget. eauto.
Qed.

(** [verify] prints COMPLETE exactly when the list is closed under the
    dependencies of its non-empty object files, and INCOMPLETE exactly when
    it is not (on a document with a non-empty object file). *)
Theorem verify_complete_iff_closed (doc : document) objectlist names :
  NoDup (dict_keys (doc_Content doc)) →
  has_object doc →
  (Complete ∈ stdout (verify (split_content doc) objectlist names)
   ↔ closed_under_dependencies doc names) ∧
  (Incomplete ∈ stdout (verify (split_content doc) objectlist names)
   ↔ ¬ closed_under_dependencies doc names).
Proof.
  intros Hnd Hobj.
  rewrite (verify_returns doc objectlist names Hobj). cbn [stdout fst].
  rewrite out_Complete, out_Incomplete.
  pose proof (missing_nil_iff_closed doc names Hnd) as Hclosed.
  split; [exact Hclosed|]. by rewrite Hclosed.
Qed.

Lemma verify_complete_iff_closed_witness :
  NoDup (dict_keys (doc_Content lib_two)) ∧ has_object lib_two ∧
  (Complete ∈ stdout (verify (split_content lib_two) "list.txt" ["b.o"; "a.o"])
   ↔ closed_under_dependencies lib_two ["b.o"; "a.o"]) ∧
  (Incomplete ∈ stdout (verify (split_content lib_two) "list.txt" ["b.o"; "a.o"])
   ↔ ¬ closed_under_dependencies lib_two ["b.o"; "a.o"]).
Proof.
  assert (Hkeys : NoDup (dict_keys (doc_Content lib_two))).
  { apply (bool_decide_unpack _). vm_compute. exact I. }
  assert (Hobj : has_object lib_two).
  { exists "a.o", []. apply (bool_decide_unpack _). vm_compute. exact I. }
  split; [exact Hkeys|]. split; [exact Hobj|].
  exact (verify_complete_iff_closed lib_two "list.txt" ["b.o"; "a.o"] Hkeys Hobj).
Defined.

(** The verdict and what is recorded depend on the list as a set only: two
    lists with the same names, whatever their order and repetitions (and
    whatever the files are called), get the same verdict and the same
    missing dependencies for every object file. *)
Theorem verify_verdict_ignores_order (doc : document) f f' names names' :
  (∀ x, x ∈ names ↔ x ∈ names') →
  (Complete ∈ stdout (verify (split_content doc) f names)
   ↔ Complete ∈ stdout (verify (split_content doc) f' names')) ∧
  (∀ inc inc',
     outcome (verify (split_content doc) f names) = inr inc →
     outcome (verify (split_content doc) f' names') = inr inc' →
     ∀ k, dict_get k inc = dict_get k inc').
Proof.
  intros Hsame. rewrite !verify_run. cbv zeta.
  destruct (decide (Content (split_content doc) = [])) as [Hnil|Hne].
  - split; [|done]. cbn. split; intros H; by apply elem_of_nil in H.
  - cbn [stdout outcome fst snd]. split.
    + rewrite !out_Complete, !missing_of_nil. split; intros Hall k Hk.
      * rewrite <- (diff_of_ext _ names names' k Hsame).
        by apply Hall, Hsame.
      * rewrite (diff_of_ext _ names names' k Hsame).
        by apply Hall, Hsame.
    + intros inc inc' [= <-] [= <-] k. rewrite !missing_of_get.
      rewrite (diff_of_ext _ names names' k Hsame).
      destruct (decide (k ∈ names)) as [Hk|Hk].
      * by rewrite decide_True by (by apply Hsame).
      * rewrite decide_False; [done|]. by rewrite <- Hsame.
Qed.

Lemma verify_verdict_ignores_order_witness :
  (∀ x, x ∈ ["b.o"; "a.o"] ↔ x ∈ ["a.o"; "b.o"; "a.o"]) ∧
  (Complete ∈ stdout (verify (split_content lib_two) "one.txt" ["b.o"; "a.o"])
   ↔ Complete ∈
       stdout (verify (split_content lib_two) "two.txt" ["a.o"; "b.o"; "a.o"])) ∧
  (∀ inc inc',
     outcome (verify (split_content lib_two) "one.txt" ["b.o"; "a.o"]) = inr inc →
     outcome (verify (split_content lib_two) "two.txt" ["a.o"; "b.o"; "a.o"])
       = inr inc' →
     ∀ k, dict_get k inc = dict_get k inc').
Proof.
  assert (Hsame : ∀ x, x ∈ ["b.o"; "a.o"] ↔ x ∈ ["a.o"; "b.o"; "a.o"]).
  { intros x. rewrite !elem_of_cons, !elem_of_nil. tauto. }
  split; [exact Hsame|].
  exact (verify_verdict_ignores_order lib_two "one.txt" "two.txt"
           ["b.o"; "a.o"] ["a.o"; "b.o"; "a.o"] Hsame).
Defined.

(** Two lists that are each COMPLETE are COMPLETE when put together. *)
Theorem verify_complete_union (doc : document) f1 f2 f names1 names2 :
  Complete ∈ stdout (verify (split_content doc) f1 names1) →
  Complete ∈ stdout (verify (split_content doc) f2 names2) →
  Complete ∈ stdout (verify (split_content doc) f (names1 ++ names2)%list).
Proof.
  rewrite !verify_run. cbv zeta.
  destruct (decide (Content (split_content doc) = [])) as [Hnil|Hne].
  - cbn. intros H. by apply elem_of_nil in H.
  - cbn [stdout fst]. rewrite !out_Complete, !missing_of_nil.
    intros H1 H2 k [Hk|Hk]%elem_of_app.
    + eapply diff_of_mono; [|by apply H1]. intros x Hx. apply elem_of_app. by left.
    + eapply diff_of_mono; [|by apply H2]. intros x Hx. apply elem_of_app. by right.
Qed.

Lemma verify_complete_union_witness :
  Complete ∈ stdout (verify (split_content lib_loop) "one.txt" ["t.o"]) ∧
  Complete ∈ stdout (verify (split_content lib_loop) "two.txt" ["s.o"; "t.o"]) ∧
  Complete ∈
    stdout (verify (split_content lib_loop) "both.txt" ["t.o"; "s.o"; "t.o"]).
Proof.
  assert (H1 : Complete ∈ stdout (verify (split_content lib_loop) "one.txt" ["t.o"])).
  { apply (bool_decide_unpack _). vm_compute. exact I. }
  assert (H2 : Complete ∈
                 stdout (verify (split_content lib_loop) "two.txt" ["s.o"; "t.o"])).
  { apply (bool_decide_unpack _). vm_compute. exact I. }
  split; [exact H1|]. split; [exact H2|].
  exact (verify_complete_union lib_loop "one.txt" "two.txt" "both.txt"
           ["t.o"] ["s.o"; "t.o"] H1 H2).
Defined.

(** ** The columns of [verify] *)

Lemma arrow_after (pad rest : string) (w : nat) :
  String.length pad = w + 2 →
  String.substring (w + 2) 4 (pad +:+ " <- " +:+ rest) = " <- ".
Proof. intros <-. exact (substring_after pad " <- " rest). Qed.

Lemma column_arrow (w : nat) (k text : string) :
  (String.length k ≤ w)%nat →
  String.substring (w + 2) 4 (column w k +:+ text) = " <- ".
Proof.
  intros Hk. unfold column.
  rewrite <- (append_assoc k), <- (append_assoc "- "), append_assoc.
  apply arrow_after. rewrite !length_append, length_spaces. cbn. lia.
Qed.

Lemma columns_arrow (w : nat) (title : string) :
  (String.length "OBJ_FILE" ≤ w)%nat →
  String.substring (w + 2) 4 (render (Columns w title)) = " <- ".
Proof.
  intros Hw. cbn [render]. rewrite <- (append_assoc "  OBJ_FILE").
  apply arrow_after. rewrite length_append, length_spaces. cbn in *. lia.
Qed.

Lemma column_width_bound (c : dict value) :
  c ≠ [] →
  (String.length "OBJ_FILE" ≤ column_width c)%nat ∧
  ∀ k, k ∈ dict_keys c → (String.length k ≤ column_width c)%nat.
Proof.
  intros Hc. unfold column_width.
  destruct (max_list (String.length <$> dict_keys c)) as [e|m] eqn:Hmax.
  { destruct c; [done|discriminate]. }
  split; [lia|]. intros k Hk.
  assert (Hm : (String.length k ≤ m)%nat).
  { eapply max_list_bound; [exact Hmax|]. by apply list_elem_of_fmap_2. }
  lia.
Qed.

(** The width that lines 53-54 compute is at least the width of the title
    OBJ_FILE and of every non-empty object file of the library, so that in
    the two titles and in every line that shows dependencies or missing
    dependencies the arrow starts in the same column, two characters after
    that width. *)
Theorem verify_columns_aligned (doc : document) objectlist names :
  has_object doc →
  let w := column_width (Content (split_content doc)) in
  (String.length "OBJ_FILE" ≤ w)%nat ∧
  (∀ k, k ∈ dict_keys (Content (split_content doc)) →
        (String.length k ≤ w)%nat) ∧
  ∀ l, l ∈ stdout (verify (split_content doc) objectlist names) →
       match l with
       | Columns _ _ | DepLine _ _ _ | MissingLine _ _ _ =>
           String.substring (w + 2) 4 (render l) = " <- "
       | _ => True
       end.
Proof.
  intros Hobj w.
  destruct (column_width_bound _ (has_object_Content doc Hobj)) as [Hw Hkeys].
  fold w in Hw, Hkeys. split; [exact Hw|]. split; [exact Hkeys|].
  assert (Hkey : ∀ k v, dict_get k (Content (split_content doc)) = Some v →
                        (String.length k ≤ w)%nat).
  { intros k v Hget%dict_get_Some_elem. apply Hkeys.
    apply list_elem_of_fmap. by exists (k, v). }
  rewrite (verify_returns doc objectlist names Hobj). cbn [stdout fst].
  intros l Hl. apply out_elem in Hl as [->|[->|[(name & _ & ->)|Hl]]].
  - done.
  - by apply columns_arrow.
  - unfold entry_of.
    destruct (dict_get name (Content (split_content doc)))
      as [[|deps]|] eqn:Hget; [done| |done].
    cbn [render]. apply column_arrow. by eapply Hkey.
  - apply verdict_lines_elem in Hl
      as [[-> _]|[_ [->|[->|(k & d & [_ Hd]%missing_of_elem & ->)]]]].
    + done.
    + done.
    + by apply columns_arrow.
    + cbn [render]. apply column_arrow. unfold diff_of in Hd.
      destruct (dict_get k (Content (split_content doc))) as [v|] eqn:Hget;
        [by eapply Hkey|done].
Qed.

Lemma verify_columns_aligned_witness :
  has_object lib_loop ∧
  (String.length "OBJ_FILE" ≤ 8)%nat ∧
  (∀ k, k ∈ dict_keys (Content (split_content lib_loop)) →
        (String.length k ≤ 8)%nat) ∧
  ∀ l, l ∈ stdout (verify (split_content lib_loop) "list.txt" ["s.o"]) →
       match l with
       | Columns _ _ | DepLine _ _ _ | MissingLine _ _ _ =>
           String.substring (8 + 2) 4 (render l) = " <- "
       | _ => True
       end.
Proof.
  assert (Hobj : has_object lib_loop).
  { exists "t.o", []. apply (bool_decide_unpack _). vm_compute. exact I. }
  split; [exact Hobj|].
  exact (verify_columns_aligned lib_loop "list.txt" ["s.o"] Hobj).
Defined.

(** ** The three modes of [main] *)

(** With [-e], [main] never raises.  It prints the names of the empty
    object files, in the order of the document, between a header and one
    line of statistics whose total is the number of all object files of the
    document; when there is no empty object file it prints one line that
    says so instead. *)
Theorem printEmpty_lists_empty (doc : document) :
  let empties := Empty (split_content doc) in
  (∀ k, k ∈ empties ↔ (k, EMPTY) ∈ doc_Content doc) ∧
  empties `sublist_of` dict_keys (doc_Content doc) ∧
  outcome (main doc None true) = inr tt ∧
  (empties = [] → stdout (main doc None true) = [NoEmpty (doc_library doc)]) ∧
  (empties ≠ [] →
   stdout (main doc None true) =
     EmptyHeader (doc_library doc) :: (Item <$> empties) ++
       [StatEmpty (length empties) (length (doc_Content doc))
          (PyFloat.percent (length empties) (length (doc_Content doc)))]).
Proof.
  intros empties. split; [apply Empty_elem|]. split.
  { unfold empties, split_content, dict_keys. cbn [Empty].
    apply fmap_sublist, sublist_filter. }
  unfold main. rewrite printEmpty_run. cbv zeta. fold empties.
  pose proof (split_lengths doc) as Hlen. fold empties in Hlen.
  destruct (decide (empties ≠ [])) as [Hne|Heq].
  - split; [done|]. split; [done|]. intros _. cbn [stdout fst].
    by rewrite Hlen, (Nat.add_comm _ (length empties)), Hlen.
  - apply dec_stable in Heq. split; [done|]. split; [done|]. done.
Qed.

(** Without option, [main] returns exactly when the document has a
    non-empty object file, and then prints the header, the leaves, and two
    lines of statistics: the leaves among the non-empty object files, and
    among all object files of the document. *)
Theorem printLeaves_output (doc : document) :
  let leaves := leaf_names (doc_Content doc) in
  let n := length (Content (split_content doc)) in
  (outcome (main doc None false) = inr tt ↔ has_object doc) ∧
  (has_object doc →
   stdout (main doc None false) =
     LeavesHeader (doc_library doc) :: (Item <$> leaves) ++
       [StatsHeader;
        StatNonEmpty (length leaves) n (PyFloat.percent (length leaves) n);
        StatAll (length leaves) (length (doc_Content doc))
          (PyFloat.percent (length leaves) (length (doc_Content doc)))]).
Proof.
  intros leaves n. unfold main. rewrite printLeaves_run. cbv zeta.
  fold leaves. fold n. pose proof (split_lengths doc) as Hlen. fold n in Hlen.
  pose proof (Content_nil_iff doc) as Hnil.
  destruct (decide (n = 0)) as [Hn|Hn].
  - assert (Hno : ¬ has_object doc).
    { apply Hnil. unfold n in Hn.
      by destruct (Content (split_content doc)). }
    split; [split; [done|by intros ?]|by intros ?].
  - assert (Hobj : has_object doc).
    { apply Content_ne_has_object. intros Hc. apply Hn. unfold n.
      by rewrite Hc. }
    split; [done|]. intros _. cbn [stdout fst].
    by rewrite (Nat.add_comm n), Hlen.
Qed.

(** What can end [main]: nothing when the document has a non-empty object
    file; otherwise [ZeroDivisionError] without option, [ValueError] with
    [-v], and nothing with [-e] alone.  No key is ever missing and the
    string "EMPTY" is never indexed, since [main] has removed the empty
    object files before it calls the three functions. *)
Theorem main_outcome (doc : document) v e :
  (has_object doc → outcome (main doc v e) = inr tt) ∧
  (¬ has_object doc →
   outcome (main doc v e) =
     match v with
     | Some _ => inl ValueError
     | None => if e then inr tt else inl ZeroDivisionError
     end) ∧
  outcome (main doc v e) ≠ inl KeyError ∧
  outcome (main doc v e) ≠ inl TypeError.
Proof.
  assert (Hmain : outcome (main doc v e) =
    if decide (Content (split_content doc) = []) then
      match v with
      | Some _ => inl ValueError
      | None => if e then inr tt else inl ZeroDivisionError
      end
    else inr tt).
  { unfold main. destruct v as [[objectlist names]|].
    - rewrite verify_run. cbv zeta. by case_decide.
    - destruct e.
      + rewrite printEmpty_run. cbv zeta. by repeat case_decide.
      + rewrite printLeaves_run. cbv zeta.
        destruct (Content (split_content doc)); by repeat case_decide. }
  rewrite Hmain. pose proof (Content_nil_iff doc) as Hnil.
  case_decide as Hc.
  - split; [intros Hobj; by apply Hnil in Hobj|]. split; [done|].
    destruct v as [[]|]; [done|]. by destruct e.
  - split; [done|]. split; [|done]. intros Hno%Hnil. done.
Qed.

Lemma Item_fmap_elem (k : string) (l : list string) :
  Item k ∈ Item <$> l → k ∈ l.
Proof. intros (k' & [= ->] & Hin)%list_elem_of_fmap. exact Hin. Qed.

Lemma Item_printEmpty (doc : document) k :
  Item k ∈ stdout (main doc None true) → k ∈ Empty (split_content doc).
Proof.
  unfold main. rewrite printEmpty_run. cbv zeta.
  case_decide; cbn [stdout fst]; intros Hin.
  - apply elem_of_cons in Hin as [?|Hin]; [done|].
    apply elem_of_app in Hin as [Hin|Hin]; [by apply Item_fmap_elem|].
    by apply list_elem_of_singleton in Hin.
  - by apply list_elem_of_singleton in Hin.
Qed.

Lemma Item_printLeaves (doc : document) k :
  Item k ∈ stdout (main doc None false) → k ∈ leaf_names (doc_Content doc).
Proof.
  unfold main. rewrite printLeaves_run. cbv zeta.
  case_decide; cbn [stdout fst]; intros Hin.
  - apply elem_of_cons in Hin as [?|Hin]; [done|].
    apply elem_of_app in Hin as [Hin|Hin]; [by apply Item_fmap_elem|].
    by apply list_elem_of_singleton in Hin.
  - apply elem_of_cons in Hin as [?|Hin]; [done|].
    apply elem_of_app in Hin as [Hin|Hin]; [by apply Item_fmap_elem|].
    repeat (apply elem_of_cons in Hin as [?|Hin]; [done|]).
    by apply elem_of_nil in Hin.
Qed.

(** The names of the document are split between the two listings: each
    key is either a key of ["Content"] after the split or a name of
    ["Empty"], and no name that [-e] shows as empty is shown as a leaf
    without option. *)
Theorem empty_and_leaves_apart (doc : document) :
  NoDup (dict_keys (doc_Content doc)) →
  Empty (split_content doc) ++ dict_keys (Content (split_content doc))
    ≡ₚ dict_keys (doc_Content doc) ∧
  ∀ k, Item k ∈ stdout (main doc None true) →
       ¬ Item k ∈ stdout (main doc None false).
Proof.
  intros Hnd. split.
  - unfold split_content, dict_keys. cbn [Empty Content].
    rewrite <- fmap_app. apply fmap_Permutation.
    apply (filter_app_complement (λ kv : string * value, kv.2 = EMPTY)).
  - intros k Hk%Item_printEmpty%Empty_elem Hk'%Item_printLeaves%leaf_names_elem.
    apply (dict_elem_get _ _ _ Hnd) in Hk, Hk'. congruence.
Qed.

Lemma empty_and_leaves_apart_witness :
  NoDup (dict_keys (doc_Content lib_mixed)) ∧
  Empty (split_content lib_mixed) ++ dict_keys (Content (split_content lib_mixed))
    ≡ₚ dict_keys (doc_Content lib_mixed) ∧
  ∀ k, Item k ∈ stdout (main lib_mixed None true) →
       ¬ Item k ∈ stdout (main lib_mixed None false).
Proof.
  assert (Hkeys : NoDup (dict_keys (doc_Content lib_mixed))).
  { apply (bool_decide_unpack _). vm_compute. exact I. }
  split; [exact Hkeys|]. exact (empty_and_leaves_apart lib_mixed Hkeys).
Defined.

(** ** Values that [main] has not filtered *)

Lemma outcome_bind {A B} (m : io A) (f : A → io B) :
  outcome (m ≫= f) =
    match outcome m with
    | inl e => inl e
    | inr a => outcome (f a)
    end.
Proof. destruct m as [o [e|a]]; reflexivity. Qed.

Lemma leaves_loop_TypeError (c : dict value) (n : nat) :
  (∃ k, (k, EMPTY) ∈ c) →
  outcome (for_in c leaves_body n) = inl TypeError.
Proof.
  revert n. induction c as [|[k' v] c IH]; intros n [k Hk].
  - by apply elem_of_nil in Hk.
  - cbn [for_in]. rewrite outcome_bind. destruct v as [|deps]; [done|].
    apply elem_of_cons in Hk as [[=]|Hk].
    rewrite leaves_body_Object.
    case_decide; cbn [outcome snd]; apply IH; by exists k.
Qed.

Lemma verify_body_outcome (c : dict value) maxLength names name inc :
  outcome (verify_body c maxLength names name inc) =
    match dict_get name c with
    | Some EMPTY => inl TypeError
    | _ => inr (missing_step c names inc name)
    end.
Proof.
  unfold verify_body, missing_step, diff_of, dict_getitem.
  destruct (dict_get name c) as [v|] eqn:Hget.
  - assert (Hin : dict_in name c = true) by (apply dict_in_true; by eexists).
    rewrite Hin. destruct v as [|deps]; [done|]. cbn. by case_decide.
  - assert (Hin : dict_in name c = false).
    { apply not_true_is_false. rewrite dict_in_true, Hget. by intros [? ?]. }
    by rewrite Hin.
Qed.

Lemma verify_loop_TypeError (c : dict value) maxLength names todo inc k :
  k ∈ todo → dict_get k c = Some EMPTY →
  outcome (for_in todo (verify_body c maxLength names) inc) = inl TypeError.
Proof.
  revert inc. induction todo as [|name todo IH]; intros inc Hk Hget.
  - by apply elem_of_nil in Hk.
  - cbn [for_in]. rewrite outcome_bind, verify_body_outcome.
    destruct (dict_get name c) as [[|deps]|] eqn:Hname; [done| |].
    + apply IH; [|done]. apply elem_of_cons in Hk as [->|Hk]; [congruence|done].
    + apply IH; [|done]. apply elem_of_cons in Hk as [->|Hk]; [congruence|done].
Qed.

(** [printLeaves] and [verify] rely on [main] having removed the empty
    object files.  Given a dictionary that still holds a value "EMPTY",
    [printLeaves] raises [TypeError] when its loop reaches it, and [verify]
    does when the list names such an object file. *)
Theorem EMPTY_value_TypeError (sd : staticdep) :
  (∃ k, (k, EMPTY) ∈ Content sd) →
  outcome (printLeaves sd) = inl TypeError ∧
  ∀ objectlist names k,
    k ∈ names → dict_get k (Content sd) = Some EMPTY →
    outcome (verify sd objectlist names) = inl TypeError.
Proof.
  intros Hemp. split.
  - unfold printLeaves. rewrite outcome_bind. cbn [print outcome snd].
    rewrite outcome_bind. by rewrite leaves_loop_TypeError.
  - intros objectlist names k Hk Hget. unfold verify.
    destruct (Content sd) as [|kv c] eqn:Hc; [done|].
    rewrite outcome_bind.
    cbn [lift max_list outcome snd dict_keys fmap list_fmap].
    rewrite outcome_bind. cbn [print outcome snd].
    rewrite outcome_bind. cbn [print outcome snd].
    rewrite outcome_bind.
    by rewrite (verify_loop_TypeError _ _ _ _ _ k Hk Hget).
Qed.

Lemma EMPTY_value_TypeError_witness :
  (∃ k, (k, EMPTY) ∈ doc_Content lib_mixed) ∧
  outcome (printLeaves
             {| Static_library := "libmixed.a";
                Content := doc_Content lib_mixed; Empty := [] |})
    = inl TypeError ∧
  ∀ objectlist names k,
    k ∈ names → dict_get k (doc_Content lib_mixed) = Some EMPTY →
    outcome (verify
               {| Static_library := "libmixed.a";
                  Content := doc_Content lib_mixed; Empty := [] |}
               objectlist names) = inl TypeError.
Proof.
  assert (Hemp : ∃ k, (k, EMPTY) ∈ doc_Content lib_mixed).
  { exists "a.o". left. }
  split; [exact Hemp|].
  exact (EMPTY_value_TypeError
           {| Static_library := "libmixed.a";
              Content := doc_Content lib_mixed; Empty := [] |} Hemp).
Defined.

(** ** Percentages of small libraries *)

(** For a library of up to a hundred object files every percentage the
    script can print is a decimal numeral of an integer nearest to the exact
    ratio [100 * a / b]: the floating-point computation never moves it
    further than a tie. *)
Theorem percent_near_exact_small :
  Forall (λ ab,
            ∃ p : Z,
              PyFloat.percent ab.1 ab.2 = pretty p ∧
              (Z.abs (2 * (p * Z.of_nat ab.2 - 100 * Z.of_nat ab.1))
               ≤ Z.of_nat ab.2)%Z)
    (count_pairs 100).
Proof.
  assert (Hall : Forall (λ ab, near_exact ab = true) (count_pairs 100)).
  { apply (bool_decide_unpack _). vm_compute. exact I. }
  eapply Forall_impl; [exact Hall|]. intros [a b]. unfold near_exact.
  cbn [fst snd]. generalize (PyFloat.percent a b); intros text.
  generalize (Z.of_nat b) (Z.of_nat a); intros B A.
  intros [HB%Z.ltb_lt Hcheck]%andb_true_iff.
  assert (Hlow : (B * (100 * A / B) ≤ 100 * A)%Z) by (apply Z.mul_div_le; lia).
  assert (Hup : (100 * A < B * (100 * A / B + 1))%Z).
  { rewrite Z.add_1_r. apply Z.mul_succ_div_gt. lia. }
  set (p := (100 * A / B)%Z) in *.
  apply orb_true_iff in Hcheck
    as [[Hp Hle]%andb_true_iff|[Hp Hle]%andb_true_iff];
    apply bool_decide_eq_true in Hp; apply Z.leb_le in Hle;
    eexists; (split; [exact Hp|]); lia.
Qed.

(** ** Growing the list *)

Lemma diff_of_elem (c : dict value) names k d dep :
  diff_of c names k = Some d →
  dep ∈ d ↔ (∃ deps, dict_get k c = Some (Object deps) ∧ dep ∈ deps) ∧
            ¬ dep ∈ names.
Proof.
  unfold diff_of. destruct (dict_get k c) as [[|deps]|]; try done.
  cbn zeta. case_decide; [|done]. intros [= <-].
  rewrite elem_of_difference, !elem_of_list_to_set. split.
  - intros [??]. split; [by exists deps|done].
  - intros [(deps' & [= <-] & ?) ?]. done.
Qed.

(** A name of the list is never printed among the missing dependencies of
    any object file, even when the name itself is reported as not found (an
    empty object file, a blank line, a name foreign to the library). *)
Theorem verify_listed_never_missing (doc : document) objectlist names a :
  a ∈ names →
  ∀ maxLength k d,
    MissingLine maxLength k d ∈ stdout (verify (split_content doc) objectlist names) →
    ¬ a ∈ d.
Proof.
  intros Ha maxLength k d. rewrite verify_run. cbv zeta.
  case_decide; cbn [stdout fst].
  - intros Hin. by apply elem_of_nil in Hin.
  - intros [_ Hd]%out_MissingLine%missing_of_elem Hin.
    apply (diff_of_elem _ _ _ _ a Hd) in Hin. tauto.
Qed.

Lemma verify_listed_never_missing_witness :
  "t.o" ∈ ["s.o"; "t.o"; "u.o"] ∧
  ∀ maxLength k d,
    MissingLine maxLength k d ∈
      stdout (verify (split_content lib_loop) "list.txt" ["s.o"; "t.o"; "u.o"]) →
    ¬ "t.o" ∈ d.
Proof.
  assert (Ha : "t.o" ∈ ["s.o"; "t.o"; "u.o"]) by (right; left).
  split; [exact Ha|].
  exact (verify_listed_never_missing lib_loop "list.txt"
           ["s.o"; "t.o"; "u.o"] "t.o" Ha).
Defined.

(** Adding names to a list never adds a missing dependency to an object
    file that was already listed: what is recorded for it in the longer
    list is part of what was recorded in the shorter one. *)
Theorem verify_missing_shrinks (doc : document) f f' names names' :
  (∀ x, x ∈ names → x ∈ names') →
  ∀ inc inc',
    outcome (verify (split_content doc) f names) = inr inc →
    outcome (verify (split_content doc) f' names') = inr inc' →
    ∀ k d', k ∈ names → dict_get k inc' = Some d' →
            ∃ d, dict_get k inc = Some d ∧ d' ⊆ d.
Proof.
  intros Hsub inc inc'. rewrite !verify_run. cbv zeta.
  case_decide; [done|]. cbn [outcome snd]. intros [= <-] [= <-] k d' Hk.
  rewrite !missing_of_get, !decide_True by auto.
  unfold diff_of.
  destruct (dict_get k _) as [[|deps]|]; try done.
  cbn zeta.
  destruct (decide ((list_to_set deps ∖ list_to_set names' : gset string) ≠ ∅))
    as [Hd'|]; [|done].
  intros [= <-].
  assert (Hincl : (list_to_set deps ∖ list_to_set names' : gset string)
                  ⊆ list_to_set deps ∖ list_to_set names).
  { intros dep. rewrite !elem_of_difference, !elem_of_list_to_set.
    intros [? Hout]. split; [done|]. intros Hin. by apply Hout, Hsub. }
  rewrite decide_True; [by eexists|].
  apply set_choose_L in Hd' as [dep Hdep]. apply Hincl in Hdep.
  intros Hempty. rewrite Hempty in Hdep. by apply not_elem_of_empty in Hdep.
Qed.

Lemma verify_missing_shrinks_witness :
  (∀ x, x ∈ ["s.o"] → x ∈ ["s.o"; "u.o"]) ∧
  ∀ inc inc',
    outcome (verify (split_content lib_loop) "one.txt" ["s.o"]) = inr inc →
    outcome (verify (split_content lib_loop) "two.txt" ["s.o"; "u.o"]) = inr inc' →
    ∀ k d', k ∈ ["s.o"] → dict_get k inc' = Some d' →
            ∃ d, dict_get k inc = Some d ∧ d' ⊆ d.
Proof.
  assert (Hsub : ∀ x, x ∈ ["s.o"] → x ∈ ["s.o"; "u.o"]).
  { intros x ->%list_elem_of_singleton. left. }
  split; [exact Hsub|].
  exact (verify_missing_shrinks lib_loop "one.txt" "two.txt"
           ["s.o"] ["s.o"; "u.o"] Hsub).
Defined.

(** When every dependency named in the document is an object file of the
    document, the list of all its object files, the empty ones included, is
    COMPLETE. *)
Theorem verify_all_names_complete (doc : document) objectlist :
  NoDup (dict_keys (doc_Content doc)) →
  has_object doc →
  (∀ k deps dep,
     (k, Object deps) ∈ doc_Content doc → dep ∈ deps →
     dep ∈ dict_keys (doc_Content doc)) →
  Complete ∈
    stdout (verify (split_content doc) objectlist (dict_keys (doc_Content doc))).
Proof.
  intros Hnd Hobj Hdeps.
  rewrite (verify_returns doc objectlist _ Hobj). cbn [stdout fst].
  apply out_Complete, missing_nil_iff_closed; [done|].
  intros name deps dep _ Hname Hdep. by eapply Hdeps.
Qed.

Lemma verify_all_names_complete_witness :
  NoDup (dict_keys (doc_Content lib_loop)) ∧ has_object lib_loop ∧
  (∀ k deps dep,
     (k, Object deps) ∈ doc_Content lib_loop → dep ∈ deps →
     dep ∈ dict_keys (doc_Content lib_loop)) ∧
  Complete ∈
    stdout (verify (split_content lib_loop) "all.txt"
              (dict_keys (doc_Content lib_loop))).
Proof.
  assert (Hkeys : NoDup (dict_keys (doc_Content lib_loop))).
  { apply (bool_decide_unpack _). vm_compute. exact I. }
  assert (Hobj : has_object lib_loop).
  { exists "t.o", []. apply (bool_decide_unpack _). vm_compute. exact I. }
  assert (Hdeps : ∀ k deps dep,
            (k, Object deps) ∈ doc_Content lib_loop → dep ∈ deps →
            dep ∈ dict_keys (doc_Content lib_loop)).
  { intros k deps dep Hk Hdep.
    apply elem_of_cons in Hk as [[= -> ->]|Hk].
    - exact Hdep.
    - apply list_elem_of_singleton in Hk as [= -> ->].
      by apply elem_of_nil in Hdep. }
  split; [exact Hkeys|]. split; [exact Hobj|]. split; [exact Hdeps|].
  exact (verify_all_names_complete lib_loop "all.txt" Hkeys Hobj Hdeps).
Defined.
